(** * sir-robin, [bot/exts/source.py]: the [source] command of the bot

    A shallow embedding of the [BotSource] cog (its three methods
    [source_command], [get_source_link] and [build_embed]) together with the
    fragments of the Python runtime the cog calls into: [str] methods,
    [pathlib] (CPython 3.11), [inspect] and the [discord.Embed] value.

    Conventions.
    - A Python [str] is a Rocq [string]; a character is a code point below
      256.
    - A Python [int] is a [Z].
    - A call that may raise returns an [outcome]; the methods of the cog run
      in the monad [M], which threads the process state ([World]). *)

From Stdlib Require Import Bool Arith ZArith List Lia.
From Stdlib Require Import Ascii String.
From Stdlib Require Import Numbers.DecimalString.
From Stdlib Require Numbers.DecimalZ Numbers.DecimalPos.
Import ListNotations.

Local Open Scope list_scope.
Local Open Scope string_scope.

(* ================================================================= *)
(** ** Python [str] methods used by the cog and by [pathlib] *)

Module PyStr.

(** [s.replace(old, new)] for one-character [old] and [new]. *)
Fixpoint replace (old new : ascii) (s : string) : string :=
  match s with
  | EmptyString => EmptyString
  | String c s' =>
      String (if Ascii.eqb c old then new else c) (replace old new s')
  end.

(** [s.split(sep)] for a one-character [sep]: never the empty list. *)
Fixpoint split (sep : ascii) (s : string) : list string :=
  match s with
  | EmptyString => [EmptyString]
  | String c s' =>
      if Ascii.eqb c sep then EmptyString :: split sep s'
      else match split sep s' with
           | [] => [String c EmptyString]
           | w :: ws => String c w :: ws
           end
  end.

(** [sep.join(l)]. *)
Definition join (sep : string) (l : list string) : string :=
  String.concat sep l.

(** [s.lstrip(c)] for a one-character [c]. *)
Fixpoint lstrip (c : ascii) (s : string) : string :=
  match s with
  | EmptyString => EmptyString
  | String d s' => if Ascii.eqb d c then lstrip c s' else s
  end.

(** [s[n:]]. *)
Fixpoint drop (n : nat) (s : string) : string :=
  match n, s with
  | O, _ => s
  | S _, EmptyString => EmptyString
  | S n', String _ s' => drop n' s'
  end.

(** [s[a:b]] for [0 <= a <= b]. *)
Definition slice (a b : nat) (s : string) : string :=
  String.substring a (b - a) s.

(** Truth value of a [str]: the empty string is false. *)
Definition truthy (s : string) : bool := negb (String.eqb s EmptyString).

(** [s.startswith(p)]. *)
Definition startswith (p s : string) : bool := String.prefix p s.

(** [s.find(c, start)] for a one-character [c]: [None] stands for [-1]. *)
Fixpoint find_from (c : ascii) (start : nat) (s : string) : option nat :=
  match s with
  | EmptyString => None
  | String d s' =>
      match start with
      | O => if Ascii.eqb d c then Some O
             else option_map S (find_from c O s')
      | S k => option_map S (find_from c k s')
      end
  end.

(** [c in s] for a character. *)
Fixpoint mem (c : ascii) (s : string) : bool :=
  match s with
  | EmptyString => false
  | String d s' => Ascii.eqb d c || mem c s'
  end.

(** [s.lower()] on code points below 256: the ASCII capitals and the
    Latin-1 capitals U+00C0..U+00DE other than U+00D7. *)
Definition lower_char (c : ascii) : ascii :=
  let n := nat_of_ascii c in
  if ((65 <=? n)%nat && (n <=? 90)%nat) ||
     ((192 <=? n)%nat && (n <=? 222)%nat && negb (n =? 215)%nat)
  then ascii_of_nat (n + 32) else c.

Fixpoint lower (s : string) : string :=
  match s with
  | EmptyString => EmptyString
  | String c s' => String (lower_char c) (lower s')
  end.

(** The line boundaries of [str.splitlines] below code point 256:
    LF, VT, FF, CR, FS, GS, RS and NEL. *)
Definition is_linebreak (c : ascii) : bool :=
  let n := nat_of_ascii c in
  (n =? 10)%nat || (n =? 11)%nat || (n =? 12)%nat || (n =? 13)%nat ||
  (n =? 28)%nat || (n =? 29)%nat || (n =? 30)%nat || (n =? 133)%nat.

Definition is_CR (c : ascii) : bool := (nat_of_ascii c =? 13)%nat.
Definition is_LF (c : ascii) : bool := (nat_of_ascii c =? 10)%nat.

(** [s.splitlines()]: line breaks are not kept, CR LF is one break, and a
    final break does not open a last empty line; [''.splitlines()] is
    the empty list. *)
Fixpoint splitlines (s : string) : list string :=
  match s with
  | EmptyString => []
  | String c s' =>
      if is_linebreak c then
        EmptyString ::
          match s' with
          | String d s'' =>
              if is_CR c && is_LF d then splitlines s'' else splitlines s'
          | EmptyString => []
          end
      else
        match splitlines s' with
        | [] => [String c EmptyString]
        | l :: ls => String c l :: ls
        end
  end.

(** *** What the first line of a text is *)

Fixpoint has_linebreak (s : string) : bool :=
  match s with
  | EmptyString => false
  | String c s' => is_linebreak c || has_linebreak s'
  end.

(** [line] is the first line of [text]: it leads [text], holds no line
    break, and [text] ends or breaks the line right after it. *)
Definition first_line_of (text line : string) : Prop :=
  exists rest,
    text = line ++ rest /\
    has_linebreak line = false /\
    (rest = "" \/
     exists c r, rest = String c r /\ is_linebreak c = true).

End PyStr.

(* ================================================================= *)
(** ** Exceptions and outcomes *)

(** The exception classes that occur in the cog and in the library calls
    it makes.  [OSError] stands for the class and its subclasses;
    [BadArgument] is [discord.ext.commands.BadArgument] with its message. *)
Inductive exn : Type :=
| TypeError
| ValueError
| OSError
| IndexError
| AttributeError
| BadArgument (msg : string).

(** What a call does: it returns a value or raises. *)
Inductive outcome (A : Type) : Type :=
| Return (a : A)
| Raise (e : exn).

Arguments Return {A} a.
Arguments Raise {A} e.

(* ================================================================= *)
(** ** [pathlib] (CPython 3.11): parsing, [relative_to], [as_posix] *)

Module pathlib.

(** [pathlib] has two flavours; [Path] takes the one of the host
    ([os.name == 'nt'] or not). *)
Inductive Flavour : Type := PosixFlavour | WindowsFlavour.

Definition backslash : ascii := "092"%char.

Definition sep (fl : Flavour) : ascii :=
  match fl with
  | PosixFlavour => "/"%char
  | WindowsFlavour => backslash
  end.

Definition altsep (fl : Flavour) : option ascii :=
  match fl with
  | PosixFlavour => None
  | WindowsFlavour => Some "/"%char
  end.

Definition sep_str (fl : Flavour) : string := String (sep fl) EmptyString.

(** [_PosixFlavour.splitroot]. *)
Definition posix_splitroot (part : string) : string * string * string :=
  match part with
  | String c _ =>
      if Ascii.eqb c "/"%char then
        let stripped_part := PyStr.lstrip "/"%char part in
        if (String.length part - String.length stripped_part =? 2)%nat
        then ("", "//", stripped_part)
        else ("", "/", stripped_part)
      else ("", "", part)
  | EmptyString => ("", "", part)
  end.

(** [first in self.drive_letters], [first] a string of length at most 1. *)
Definition in_drive_letters (first : string) : bool :=
  match first with
  | String c EmptyString =>
      let n := nat_of_ascii c in
      ((65 <=? n)%nat && (n <=? 90)%nat) ||
      ((97 <=? n)%nat && (n <=? 122)%nat)
  | _ => false
  end.

(** The prefix of extended paths, backslash backslash [?] backslash. *)
Definition ext_namespace_prefix : string :=
  String backslash (String backslash (String "?" (String backslash ""))).

(** [_WindowsFlavour._split_extended_path]. *)
Definition _split_extended_path (s : string) : string * string :=
  if PyStr.startswith ext_namespace_prefix s then
    let prefix := PyStr.slice 0 4 s in
    let s := PyStr.drop 4 s in
    if PyStr.startswith ("UNC" ++ String backslash "") s
    then (prefix ++ PyStr.slice 0 3 s, String backslash (PyStr.drop 3 s))
    else (prefix, s)
  else ("", s).

(** [_WindowsFlavour.splitroot], in three pieces.  First its UNC
    branch: the drive is the machine and the mount point, the root one
    backslash; [None] when the source falls through to the drive-letter
    branch. *)
Definition splitroot_unc (prefix part : string)
  : option (string * string * string) :=
  let sep := String backslash "" in
  let first := PyStr.slice 0 1 part in
  let second := PyStr.slice 1 2 part in
  let third := PyStr.slice 2 3 part in
  if String.eqb second sep && String.eqb first sep
     && negb (String.eqb third sep)
  then
    match PyStr.find_from backslash 2 part with
    | Some index =>
        let found := PyStr.find_from backslash (index + 1) part in
        let doubled :=
          match found with
          | Some i => (i =? index + 1)%nat
          | None => false
          end in
        if doubled then None
        else
          let index2 :=
            match found with
            | Some i => i
            | None => String.length part
            end in
          if PyStr.truthy prefix
          then Some (prefix ++ PyStr.slice 1 index2 part, sep,
                     PyStr.drop (index2 + 1) part)
          else Some (PyStr.slice 0 index2 part, sep,
                     PyStr.drop (index2 + 1) part)
    | None => None
    end
  else None.

(** Its last part: a drive letter with a colon, then a root. *)
Definition splitroot_drive (prefix part : string)
  : string * string * string :=
  let sep := String backslash "" in
  let first := PyStr.slice 0 1 part in
  let second := PyStr.slice 1 2 part in
  let third := PyStr.slice 2 3 part in
  let '(drv, part, first) :=
    if String.eqb second ":" && in_drive_letters first
    then (PyStr.slice 0 2 part, PyStr.drop 2 part, third)
    else ("", part, first) in
  let '(root, part) :=
    if String.eqb first sep
    then (first, PyStr.lstrip backslash part)
    else ("", part) in
  (prefix ++ drv, root, part).

Definition windows_splitroot (part : string) : string * string * string :=
  let sep := String backslash "" in
  let first := PyStr.slice 0 1 part in
  let second := PyStr.slice 1 2 part in
  let '(prefix, part) :=
    if String.eqb second sep && String.eqb first sep
    then _split_extended_path part else ("", part) in
  match splitroot_unc prefix part with
  | Some r => r
  | None => splitroot_drive prefix part
  end.

Definition splitroot (fl : Flavour) : string -> string * string * string :=
  match fl with
  | PosixFlavour => posix_splitroot
  | WindowsFlavour => windows_splitroot
  end.

Definition casefold (fl : Flavour) (s : string) : string :=
  match fl with
  | PosixFlavour => s
  | WindowsFlavour => PyStr.lower s
  end.

Definition casefold_parts (fl : Flavour) (parts : list string)
  : list string := map (casefold fl) parts.

(** A parsed path: drive, root and the list of parts, whose head is the
    anchor (drive and root together) when there is one. *)
Record PurePath : Type := from_parsed_parts
  { _drv : string; _root : string; _parts : list string }.

(** A path component that [parse_parts] keeps: not empty and not a dot. *)
Definition keeps (x : string) : bool :=
  PyStr.truthy x && negb (String.eqb x ".").

(** [_Flavour.parse_parts] on the one-element list [[part]]:
    [rel.split(sep)] is [[rel]] when [sep] does not occur in [rel], so the
    two branches of the source are one. *)
Definition parse_parts (fl : Flavour) (part : string) : PurePath :=
  if PyStr.truthy part then
    let part :=
      match altsep fl with
      | Some a => PyStr.replace a (sep fl) part
      | None => part
      end in
    let '(drv, root, rel) := splitroot fl part in
    let parsed := filter keeps (PyStr.split (sep fl) rel) in
    if PyStr.truthy drv || PyStr.truthy root
    then from_parsed_parts drv root ((drv ++ root) :: parsed)
    else from_parsed_parts drv root parsed
  else from_parsed_parts "" "" [].

(** [Path(filename)]: [os.fspath(None)] raises [TypeError]. *)
Definition Path (fl : Flavour) (filename : option string)
  : outcome PurePath :=
  match filename with
  | Some a => Return (parse_parts fl a)
  | None => Raise TypeError
  end.

Fixpoint list_eqb (l1 l2 : list string) : bool :=
  match l1, l2 with
  | [], [] => true
  | x :: l1', y :: l2' => String.eqb x y && list_eqb l1' l2'
  | _, _ => false
  end.

(** The parts with drive and root as two separate heads, as
    [relative_to] compares them. *)
Definition abs_parts (p : PurePath) : list string :=
  if PyStr.truthy (_root p)
  then ([_drv p; _root p] ++ tl (_parts p))%list
  else _parts p.

(** [PurePath.relative_to(other)] for [other] a path.  The source parses
    the parts of [other] once more, which gives [other] back unless one of
    its components starts like a Windows drive (a letter and a colon);
    no directory has such a name, and the embedding takes [other] as it
    is. *)
Definition relative_to (fl : Flavour) (self other : PurePath)
  : outcome PurePath :=
  let n := List.length (abs_parts other) in
  let cf := casefold_parts fl in
  if (if (n =? 0)%nat
      then PyStr.truthy (_root self) || PyStr.truthy (_drv self)
      else negb (list_eqb (cf (firstn n (abs_parts self)))
                          (cf (abs_parts other))))
  then Raise ValueError
  else Return (from_parsed_parts ""
                 (if (n =? 1)%nat then _root self else "")
                 (skipn n (abs_parts self))).

(** [PurePath._format_parsed_parts]. *)
Definition _format_parsed_parts (fl : Flavour) (p : PurePath) : string :=
  if PyStr.truthy (_drv p) || PyStr.truthy (_root p)
  then _drv p ++ _root p ++ PyStr.join (sep_str fl) (tl (_parts p))
  else PyStr.join (sep_str fl) (_parts p).

(** [str(path)]. *)
Definition str (fl : Flavour) (p : PurePath) : string :=
  let s := _format_parsed_parts fl p in
  if PyStr.truthy s then s else ".".

(** [PurePath.as_posix]. *)
Definition as_posix (fl : Flavour) (p : PurePath) : string :=
  PyStr.replace (sep fl) "/"%char (str fl p).

(** [PurePath.is_absolute]. *)
Definition is_absolute (fl : Flavour) (p : PurePath) : bool :=
  if PyStr.truthy (_root p)
  then match fl with
       | PosixFlavour => true
       | WindowsFlavour => PyStr.truthy (_drv p)
       end
  else false.

(** *** What [relative_to] and [as_posix] are expected to compute *)

(** The components of a path after its anchor. *)
Definition components (p : PurePath) : list string :=
  if PyStr.truthy (_drv p) || PyStr.truthy (_root p)
  then tl (_parts p) else _parts p.

Fixpoint is_prefix (l1 l2 : list string) : bool :=
  match l1, l2 with
  | [], _ => true
  | x :: l1', y :: l2' => String.eqb x y && is_prefix l1' l2'
  | _ :: _, [] => false
  end.

(** [self] lies under [other]: the same drive and root, and the
    components of [other] lead those of [self], all three up to the case
    folding of the flavour. *)
Definition lies_under (fl : Flavour) (self other : PurePath) : bool :=
  String.eqb (casefold fl (_drv self)) (casefold fl (_drv other)) &&
  String.eqb (casefold fl (_root self)) (casefold fl (_root other)) &&
  is_prefix (casefold_parts fl (components other))
            (casefold_parts fl (components self)).

(** What parsing guarantees of a path: the anchor heads the parts, the
    components are not empty and hold no separator, and a root holds
    one. *)
Record parsed (fl : Flavour) (p : PurePath) : Prop :=
  { parsed_parts :
      _parts p =
      ((if PyStr.truthy (_drv p) || PyStr.truthy (_root p)
        then [(_drv p ++ _root p)%string] else []) ++ components p)%list;
    parsed_components :
      Forall (fun x => PyStr.mem (sep fl) x = false /\ PyStr.truthy x = true)
             (components p);
    parsed_root : PyStr.truthy (_root p) = true -> PyStr.mem (sep fl) (_root p) = true }.

(** The components of [self] that follow those of [other]. *)
Definition below (self other : PurePath) : list string :=
  skipn (List.length (components other)) (components self).

(** A relative path written with forward slashes. *)
Definition posix_join (rest : list string) : string :=
  match rest with
  | [] => "."
  | _ :: _ => PyStr.join "/" rest
  end.

End pathlib.

(* ================================================================= *)
(** ** [inspect]: the introspection data of functions and classes *)

Module inspect.

(** A code object.  [code_sourcelines] is what
    [inspect.getsourcelines] does on it: the lines of the block and the
    number of its first line, or the exception raised ([OSError] when the
    source cannot be retrieved).  The library returns at least one line and
    counts lines from 1; the embedding does not rely on either. *)
Record CodeType : Type :=
  { co_filename : string;
    code_sourcelines : outcome (list string * Z) }.

(** A function object: a plain function, or one with a [__wrapped__]
    attribute (set by [functools.wraps]). *)
Inductive FunctionType : Type :=
| Function (code : CodeType)
| Wrapper (code : CodeType) (wrapped : FunctionType).

Definition __code__ (f : FunctionType) : CodeType :=
  match f with
  | Function code => code
  | Wrapper code _ => code
  end.

(** [inspect.unwrap]: the last object of the [__wrapped__] chain.  A
    function object here is a finite chain, so the [ValueError] of the
    library (a cycle, or a chain as long as the recursion limit) does not
    arise. *)
Fixpoint unwrap (func : FunctionType) : FunctionType :=
  match func with
  | Function _ => func
  | Wrapper _ f => unwrap f
  end.

(** A class.  [class_sourcefile] is what [inspect.getsourcefile] does on
    it: a file name, [None], or the exception raised ([TypeError] for a
    class without a module file); [class_sourcelines] is what
    [inspect.getsourcelines] does on it. *)
Record ClassType : Type :=
  { class_sourcefile : outcome (option string);
    class_sourcelines : outcome (list string * Z) }.

(** What the cog hands to [getsourcelines]. *)
Inductive Src : Type :=
| SrcCode (c : CodeType)
| SrcClass (t : ClassType).

Definition getsourcefile (t : ClassType) : outcome (option string) :=
  class_sourcefile t.

Definition getsourcelines (src : Src) : outcome (list string * Z) :=
  match src with
  | SrcCode c => code_sourcelines c
  | SrcClass t => class_sourcelines t
  end.

(** The built-in class [str]: no module file. *)
Definition str_type : ClassType :=
  {| class_sourcefile := Raise TypeError;
     class_sourcelines := Raise TypeError |}.

End inspect.

(* ================================================================= *)
(** ** [discord]: embeds, commands, cogs *)

Module Embed.

Record t : Type :=
  { title : option string;
    description : option string;
    fields : list (string * string);
    thumbnail : option string;
    footer : option string }.

(** [Embed(title=..., description=...)]. *)
Definition new (title description : option string) : t :=
  {| title := title; description := description; fields := [];
     thumbnail := None; footer := None |}.

Definition add_field (e : t) (name value : string) : t :=
  {| title := title e; description := description e;
     fields := (fields e ++ [(name, value)])%list;
     thumbnail := thumbnail e; footer := footer e |}.

Definition set_thumbnail (e : t) (url : string) : t :=
  {| title := title e; description := description e; fields := fields e;
     thumbnail := Some url; footer := footer e |}.

Definition set_footer (e : t) (text : string) : t :=
  {| title := title e; description := description e; fields := fields e;
     thumbnail := thumbnail e; footer := Some text |}.

End Embed.

Module Command.
Record t : Type :=
  { qualified_name : string;
    short_doc : string;
    callback : inspect.FunctionType;
    type : inspect.ClassType }.
End Command.

Module Cog.
Record t : Type :=
  { qualified_name : string;
    description : string;
    type : inspect.ClassType }.
End Cog.

Module HelpCommand.
Record t : Type := { type : inspect.ClassType }.
End HelpCommand.

(** What the converter hands to the command.  The source still tests for a
    [str] item, so a plain [str] is one of the cases. *)
Inductive SourceType : Type :=
| ItemHelpCommand (h : HelpCommand.t)
| ItemCommand (c : Command.t)
| ItemCog (g : Cog.t)
| ItemStr (s : string).

(** [type(source_item)]. *)
Definition type_of (source_item : SourceType) : inspect.ClassType :=
  match source_item with
  | ItemHelpCommand h => HelpCommand.type h
  | ItemCog g => Cog.type g
  | ItemStr _ => inspect.str_type
  | ItemCommand c => Command.type c
  end.

Definition isinstance_str (source_item : SourceType) : bool :=
  match source_item with ItemStr _ => true | _ => false end.

(** Truth value of the optional argument: [None] and the empty [str] are
    false, every other object is true. *)
Definition bool_of (source_item : option SourceType) : bool :=
  match source_item with
  | None => false
  | Some (ItemStr s) => PyStr.truthy s
  | Some _ => true
  end.

(** [str(n)] for an [int], as an f-string formats it. *)
Definition str_of_int (n : Z) : string := NilZero.string_of_int (Z.to_int n).

(** Truth value of an [int]. *)
Definition int_truthy (n : Z) : bool := negb (n =? 0)%Z.

(* ================================================================= *)
(** ** The process state and the monad of the cog's methods *)

(** The invocation context: the channel the reply goes to. *)
Record Context : Type := { channel : Z }.

(** The process state the cog can see: the working directory of the
    process and the messages sent so far, oldest first. *)
Record World : Type :=
  { os_getcwd : string;
    sent : list (Context * Embed.t) }.

Definition M (A : Type) : Type := World -> outcome A * World.

Definition ret {A} (a : A) : M A := fun w => (Return a, w).

Definition raise {A} (e : exn) : M A := fun w => (Raise e, w).

Definition bind {A B} (m : M A) (k : A -> M B) : M B :=
  fun w =>
    match m w with
    | (Return a, w') => k a w'
    | (Raise e, w') => (Raise e, w')
    end.

Definition lift {A} (o : outcome A) : M A := fun w => (o, w).

Notation "x <- m ;; k" := (bind m (fun x => k))
  (at level 61, m at next level, right associativity).
Notation "' pat <- m ;; k" := (bind m (fun x => match x with pat => k end))
  (at level 61, pat pattern, m at next level, right associativity).

(** [Path.cwd()], which is [Path(os.getcwd())]. *)
Definition Path_cwd (fl : pathlib.Flavour) : M pathlib.PurePath :=
  fun w => (pathlib.Path fl (Some (os_getcwd w)), w).

(** [await ctx.send(embed=embed)]. *)
Definition send (ctx : Context) (embed : Embed.t) : M unit :=
  fun w =>
    (Return tt,
     {| os_getcwd := os_getcwd w; sent := (sent w ++ [(ctx, embed)])%list |}).

(* ================================================================= *)
(** ** The cog [BotSource] *)

(** [bot.constants.Client]: the configuration the cog reads. *)
Record ClientConfig : Type := { github_bot_repo : string }.

Section BotSource.

(** The flavour of [pathlib.Path] on the host. *)
Variable host : pathlib.Flavour.

(** The constants of the bot. *)
Variable Client : ClientConfig.

Definition dynamically_created : exn :=
  BadArgument "Cannot get source for a dynamically-created object.".

(** [first_line_no or None]. *)
Definition or_None (first_line_no : option Z) : option Z :=
  match first_line_no with
  | Some n => if int_truthy n then Some n else None
  | None => None
  end.

(** [BotSource.get_source_link]: the link, the file location and the
    first line number. *)
Definition get_source_link (source_item : SourceType)
  : M (string * string * option Z) :=
  '(is_str, src, filename) <-
    match source_item with
    | ItemCommand c =>
        let source_item := inspect.unwrap (Command.callback c) in
        let src := inspect.__code__ source_item in
        ret (false, inspect.SrcCode src, Some (inspect.co_filename src))
    | _ =>
        let src := type_of source_item in
        match inspect.getsourcefile src with
        | Return filename =>
            ret (isinstance_str source_item, inspect.SrcClass src, filename)
        | Raise TypeError => raise dynamically_created
        | Raise e => raise e
        end
    end ;;
  '(first_line_no, lines_extension) <-
    (if negb is_str then
       match inspect.getsourcelines src with
       | Return (lines, first_line_no) =>
           ret (Some first_line_no,
                "#L" ++ str_of_int first_line_no ++ "-L" ++
                str_of_int (first_line_no + Z.of_nat (List.length lines) - 1))
       | Raise OSError => raise dynamically_created
       | Raise e => raise e
       end
     else ret (None, "")) ;;
  path <- lift (pathlib.Path host filename) ;;
  cwd <- Path_cwd host ;;
  relative <- lift (pathlib.relative_to host path cwd) ;;
  let file_location := pathlib.as_posix host relative in
  let url :=
    github_bot_repo Client ++ "/blob/main/" ++ file_location ++
    lines_extension in
  ret (url, file_location, or_None first_line_no).

Definition go_to_github (url : string) : string :=
  "[Go to GitHub](" ++ url ++ ")".

(** [BotSource.build_embed]. *)
Definition build_embed (source_object : SourceType) : M Embed.t :=
  '(url, location, first_line) <- get_source_link source_object ;;
  '(title, description) <-
    match source_object with
    | ItemCommand c =>
        let description := Command.short_doc c in
        let title := "Command: " ++ Command.qualified_name c in
        ret (title, description)
    | ItemCog g =>
        let title := "Cog: " ++ Cog.qualified_name g in
        match PyStr.splitlines (Cog.description g) with
        | description :: _ => ret (title, description)
        | [] => raise IndexError
        end
    | ItemHelpCommand _ | ItemStr _ =>
        (* neither has a [qualified_name] *)
        raise AttributeError
    end ;;
  let embed := Embed.new (Some title) (Some description) in
  let embed := Embed.add_field embed "Source Code" (go_to_github url) in
  let line_text :=
    match first_line with
    | Some n => if int_truthy n then ":" ++ str_of_int n else ""
    | None => ""
    end in
  let embed := Embed.set_footer embed (location ++ line_text) in
  ret embed.

Definition thumbnail_url : string :=
  "https://avatars1.githubusercontent.com/u/9919".

(** [BotSource.source_command].  The last case is not reached ([None]
    is false); it is what [build_embed] does on [None], whose type is
    built in. *)
Definition source_command (ctx : Context) (source_item : option SourceType)
  : M unit :=
  if negb (bool_of source_item) then
    let embed := Embed.new (Some "Sir Robin's GitHub Repository") None in
    let embed :=
      Embed.add_field embed "Repository"
        (go_to_github (github_bot_repo Client)) in
    let embed := Embed.set_thumbnail embed thumbnail_url in
    send ctx embed
  else
    match source_item with
    | Some (ItemHelpCommand _) =>
        let embed :=
          Embed.new (Some "Help Command")
            (Some "We use Discord.py's default help command.") in
        let embed :=
          Embed.add_field embed "Repository"
            (go_to_github (github_bot_repo Client)) in
        let embed := Embed.set_thumbnail embed thumbnail_url in
        send ctx embed
    | Some item =>
        embed <- build_embed item ;;
        send ctx embed
    | None => raise dynamically_created
    end.

End BotSource.

(* ================================================================= *)
(** ** Vocabulary of the specification *)

(** The code object a command links to: that of its unwrapped callback. *)
Definition command_code (c : Command.t) : inspect.CodeType :=
  inspect.__code__ (inspect.unwrap (Command.callback c)).

(** The introspection data place [item] in [filename], as the block
    [lines] that starts at line [first_line_no]. *)
Definition located (item : SourceType) (filename : string)
           (lines : list string) (first_line_no : Z) : Prop :=
  match item with
  | ItemCommand c =>
      inspect.co_filename (command_code c) = filename /\
      inspect.code_sourcelines (command_code c) = Return (lines, first_line_no)
  | ItemStr _ => False
  | _ =>
      inspect.class_sourcefile (type_of item) = Return (Some filename) /\
      inspect.class_sourcelines (type_of item) = Return (lines, first_line_no)
  end.

(** [inspect] fails on [item] in one of the two ways [get_source_link]
    guards against: [getsourcefile] raises [TypeError] on the type of the
    item, or [getsourcelines] is reached and raises [OSError].  Other
    failures of [inspect] on an object without a source file ([OSError]
    from [getsourcefile]) are not among them. *)
Definition guarded_failure (item : SourceType) : Prop :=
  match item with
  | ItemCommand c =>
      inspect.code_sourcelines (command_code c) = Raise OSError
  | _ =>
      inspect.class_sourcefile (type_of item) = Raise TypeError \/
      (isinstance_str item = false /\
       (exists filename,
           inspect.class_sourcefile (type_of item) = Return filename) /\
       inspect.class_sourcelines (type_of item) = Raise OSError)
  end.

(** The items [build_embed] has a title and a description for: a command,
    or a cog whose description is not empty. *)
Definition summarizable (item : SourceType) : Prop :=
  match item with
  | ItemCommand _ => True
  | ItemCog g => Cog.description g <> ""
  | ItemHelpCommand _ | ItemStr _ => False
  end.

(** The working directory of the process, as [Path.cwd()] parses it. *)
Definition cwd_path (host : pathlib.Flavour) (w : World) : pathlib.PurePath :=
  pathlib.parse_parts host (os_getcwd w).

(** The link to lines [n] to [m] of [file_location]. *)
Definition blob_url (Client : ClientConfig) (file_location : string)
           (n m : Z) : string :=
  github_bot_repo Client ++ "/blob/main/" ++ file_location ++
  "#L" ++ str_of_int n ++ "-L" ++ str_of_int m.

(** A computation is read-only when it leaves the process state as it
    found it and, of that state, its outcome depends on the working
    directory alone. *)
Definition read_only {A : Type} (m : M A) : Prop :=
  (forall w, snd (m w) = w) /\
  (forall w1 w2, os_getcwd w1 = os_getcwd w2 -> fst (m w1) = fst (m w2)).

(** [f] behind wrappers with the code objects [codes], the outermost
    first: what stacked decorators that use [functools.wraps] build. *)
Definition wrapped_in (codes : list inspect.CodeType)
           (f : inspect.FunctionType) : inspect.FunctionType :=
  fold_right inspect.Wrapper f codes.

(** The number of wrappers in front of the innermost function. *)
Fixpoint wrappers (f : inspect.FunctionType) : nat :=
  match f with
  | inspect.Function _ => 0
  | inspect.Wrapper _ g => S (wrappers g)
  end.

(** The loop of [inspect.unwrap] with its guard: [memo] counts the objects
    met so far, and one more step is refused with [ValueError] once that
    count has reached the recursion limit.  (The other half of the guard,
    an object met twice, cannot happen in a finite chain.) *)
Fixpoint unwrap_loop (recursion_limit memo : nat)
         (func : inspect.FunctionType) : outcome inspect.FunctionType :=
  match func with
  | inspect.Function _ => Return func
  | inspect.Wrapper _ f =>
      if (recursion_limit <=? memo)%nat then Raise ValueError
      else unwrap_loop recursion_limit (S memo) f
  end.

(** [inspect.unwrap(func)] under [sys.getrecursionlimit()]: the memo starts
    with [func] itself. *)
Definition unwrap_guarded (recursion_limit : nat)
           (func : inspect.FunctionType) : outcome inspect.FunctionType :=
  unwrap_loop recursion_limit 1 func.

(** The command [c] with another callback. *)
Definition with_callback (c : Command.t) (f : inspect.FunctionType)
  : Command.t :=
  {| Command.qualified_name := Command.qualified_name c;
     Command.short_doc := Command.short_doc c;
     Command.callback := f;
     Command.type := Command.type c |}.

(** [inspect] raises [e] on [item] at a call that [get_source_link] makes,
    and [e] is not the exception that call is guarded against. *)
Definition unhandled (item : SourceType) (e : exn) : Prop :=
  match item with
  | ItemCommand c =>
      inspect.code_sourcelines (command_code c) = Raise e /\ e <> OSError
  | _ =>
      (inspect.class_sourcefile (type_of item) = Raise e /\ e <> TypeError) \/
      (isinstance_str item = false /\
       (exists filename,
           inspect.class_sourcefile (type_of item) = Return filename) /\
       inspect.class_sourcelines (type_of item) = Raise e /\ e <> OSError)
  end.

(** The item is a command or a cog: what the converter of the bot finds. *)
Definition command_or_cog (item : SourceType) : Prop :=
  match item with
  | ItemCommand _ | ItemCog _ => True
  | ItemHelpCommand _ | ItemStr _ => False
  end.

(** The two fixed replies of [source_command]. *)
Definition repository_embed (Client : ClientConfig) : Embed.t :=
  {| Embed.title := Some "Sir Robin's GitHub Repository";
     Embed.description := None;
     Embed.fields :=
       [("Repository", "[Go to GitHub](" ++ github_bot_repo Client ++ ")")];
     Embed.thumbnail := Some "https://avatars1.githubusercontent.com/u/9919";
     Embed.footer := None |}.

Definition help_embed (Client : ClientConfig) : Embed.t :=
  {| Embed.title := Some "Help Command";
     Embed.description := Some "We use Discord.py's default help command.";
     Embed.fields :=
       [("Repository", "[Go to GitHub](" ++ github_bot_repo Client ++ ")")];
     Embed.thumbnail := Some "https://avatars1.githubusercontent.com/u/9919";
     Embed.footer := None |}.

(** [int(s)] for the decimal strings that [str_of_int] writes. *)
Definition int_of_str (s : string) : option Z :=
  option_map Z.of_int (NilZero.int_of_string s).

(** ** Sample data: a checkout of the bot in [/home/bot] *)

Module Sample.

Definition Client : ClientConfig :=
  {| github_bot_repo := "https://github.com/python-discord/sir-robin" |}.

Definition world : World := {| os_getcwd := "/home/bot"; sent := [] |}.

Definition LF : string := String "010"%char "".

Definition source_py : string := "/home/bot/bot/exts/source.py".

(** A command defined on lines 19 to 21 of the cog's file, behind one
    decorator that wraps it. *)
Definition callback_code : inspect.CodeType :=
  {| inspect.co_filename := source_py;
     inspect.code_sourcelines :=
       Return (["@commands.command()"; "async def source_command():";
                "    return"], 19%Z) |}.

Definition wrapper_code : inspect.CodeType :=
  {| inspect.co_filename := "/home/bot/bot/utils/decorators.py";
     inspect.code_sourcelines := Return (["def inner():"], 40%Z) |}.

Definition Command_type : inspect.ClassType :=
  {| inspect.class_sourcefile :=
       Return (Some "/usr/lib/python3/discord/ext/commands/core.py");
     inspect.class_sourcelines := Return (["class Command:"], 200%Z) |}.

Definition source : Command.t :=
  {| Command.qualified_name := "source";
     Command.short_doc := "Display information and a GitHub link.";
     Command.callback :=
       inspect.Wrapper wrapper_code (inspect.Function callback_code);
     Command.type := Command_type |}.

(** A command made at run time: its code has no source to read. *)
Definition evaluated : Command.t :=
  {| Command.qualified_name := "evaluated";
     Command.short_doc := "";
     Command.callback :=
       inspect.Function
         {| inspect.co_filename := "<string>";
            inspect.code_sourcelines := Raise OSError |};
     Command.type := Command_type |}.

(** A command of an installed library, outside the checkout. *)
Definition library_command : Command.t :=
  {| Command.qualified_name := "help";
     Command.short_doc := "Shows this message";
     Command.callback :=
       inspect.Function
         {| inspect.co_filename :=
              "/usr/lib/python3/discord/ext/commands/help.py";
            inspect.code_sourcelines :=
              Return (["async def command_callback():"], 850%Z) |};
     Command.type := Command_type |}.

Definition BotSource_type : inspect.ClassType :=
  {| inspect.class_sourcefile := Return (Some source_py);
     inspect.class_sourcelines :=
       Return (["class BotSource(commands.Cog):"; "    pass"], 13%Z) |}.

(** A cog whose description has two lines. *)
Definition BotSource : Cog.t :=
  {| Cog.qualified_name := "BotSource";
     Cog.description :=
       "Displays information about the bot's source code." ++ LF ++
       "Second line.";
     Cog.type := BotSource_type |}.

(** A cog without a docstring: its description is empty. *)
Definition Undocumented : Cog.t :=
  {| Cog.qualified_name := "Undocumented";
     Cog.description := "";
     Cog.type := BotSource_type |}.

(** A cog whose class was made at run time. *)
Definition Dynamic : Cog.t :=
  {| Cog.qualified_name := "Dynamic";
     Cog.description := "Made at run time.";
     Cog.type :=
       {| inspect.class_sourcefile := Raise TypeError;
          inspect.class_sourcelines := Raise TypeError |} |}.

(** The same checkout on a Windows host. *)
Definition windows_world : World :=
  {| os_getcwd := "C:" ++ String pathlib.backslash "bot"; sent := [] |}.

Definition windows_source : Command.t :=
  {| Command.qualified_name := "source";
     Command.short_doc := "Display information and a GitHub link.";
     Command.callback :=
       inspect.Function
         {| inspect.co_filename :=
              "c:" ++ String pathlib.backslash "Bot" ++
              String pathlib.backslash "bot" ++
              String pathlib.backslash "exts" ++
              String pathlib.backslash "source.py";
            inspect.code_sourcelines :=
              Return (["async def source_command():"; "    return"],
                      19%Z) |};
     Command.type := Command_type |}.

(** A cog whose class was typed into an interactive session: the module
    is [__main__] and has no file, which [inspect] reports with
    [OSError]. *)
Definition Interactive : Cog.t :=
  {| Cog.qualified_name := "Interactive";
     Cog.description := "Typed in by hand.";
     Cog.type :=
       {| inspect.class_sourcefile := Raise OSError;
          inspect.class_sourcelines := Raise OSError |} |}.

(** A state in which two messages were sent already. *)
Definition busy_world : World :=
  {| os_getcwd := "/home/bot";
     sent :=
       [({| channel := 7 |}, Embed.new (Some "first") None);
        ({| channel := 8 |}, Embed.new (Some "second") None)] |}.

End Sample.

(* ================================================================= *)
(** * Facts about the [str] methods *)

Module PyStrFacts.
Import PyStr.

Lemma append_nil_r (s : string) : s ++ "" = s.
Proof. induction s as [|c s IH]; simpl; [reflexivity | now rewrite IH]. Qed.

Lemma append_assoc (a b c : string) : (a ++ b) ++ c = a ++ b ++ c.
Proof. induction a as [|x a IH]; simpl; [reflexivity | now rewrite IH]. Qed.

(** Appending something to a string gives the string back only when that
    something is empty. *)
Lemma append_eq_self (s t : string) : s ++ t = s -> t = "".
Proof.
  induction s as [|c s IH]; simpl; intros H.
  - exact H.
  - injection H as H. now apply IH.
Qed.

Lemma append_inv_head (s t u : string) : s ++ t = s ++ u -> t = u.
Proof.
  induction s as [|c s IH]; simpl; intros H.
  - exact H.
  - injection H as H. now apply IH.
Qed.

Lemma truthy_true (s : string) : truthy s = true <-> s <> "".
Proof.
  unfold truthy. destruct s; simpl; split; intros H;
    try discriminate; try reflexivity; try congruence.
Qed.

Lemma truthy_false (s : string) : truthy s = false <-> s = "".
Proof.
  unfold truthy. destruct s; simpl; split; intros H;
    try discriminate; try reflexivity.
Qed.

Lemma truthy_append_l (s t : string) :
  truthy s = true -> truthy (s ++ t) = true.
Proof. destruct s; simpl; [discriminate | reflexivity]. Qed.

Lemma mem_append (c : ascii) (a b : string) :
  mem c (a ++ b) = mem c a || mem c b.
Proof.
  induction a as [|x a IH]; simpl; [reflexivity |].
  now rewrite IH, orb_assoc.
Qed.

Lemma replace_append (o n : ascii) (a b : string) :
  replace o n (a ++ b) = replace o n a ++ replace o n b.
Proof. induction a as [|x a IH]; simpl; [reflexivity | now rewrite IH]. Qed.

(** [replace] leaves a string alone when the character does not occur. *)
Lemma replace_absent (o n : ascii) (s : string) :
  mem o s = false -> replace o n s = s.
Proof.
  induction s as [|c s IH]; simpl; intros H; [reflexivity |].
  apply orb_false_iff in H as [Hc Hs].
  now rewrite Hc, IH.
Qed.

(** After [replace], the replaced character is gone. *)
Lemma mem_replace (o n : ascii) (s : string) :
  o <> n -> mem o (replace o n s) = false.
Proof.
  intros Hne. induction s as [|c s IH]; simpl; [reflexivity |].
  rewrite IH, orb_false_r.
  destruct (Ascii.eqb c o) eqn:E; [| exact E].
  apply Ascii.eqb_neq. congruence.
Qed.

(** The pieces of [split] do not hold the separator. *)
Lemma split_absent (sep : ascii) (s : string) :
  Forall (fun x => mem sep x = false) (split sep s).
Proof.
  induction s as [|c s IH]; simpl.
  - constructor; [reflexivity | constructor].
  - destruct (Ascii.eqb c sep) eqn:E.
    + constructor; [reflexivity | exact IH].
    + destruct (split sep s) as [|w ws].
      * constructor; [simpl; now rewrite E | constructor].
      * inversion IH as [|? ? Hw Hws]; subst.
        constructor; [simpl; now rewrite E, Hw | exact Hws].
Qed.

(** Joining with the separator and replacing it afterwards is joining
    with the replacement, when the joined strings do not hold it. *)
Lemma replace_join (o n : ascii) (l : list string) :
  Forall (fun x => mem o x = false) l ->
  replace o n (join (String o "") l) = join (String n "") l.
Proof.
  unfold join. induction l as [|x l IH]; intros H; [reflexivity |].
  inversion H as [|? ? Hx Hl]; subst.
  destruct l as [|y l].
  - simpl. now apply replace_absent.
  - change (String.concat (String o "") (x :: y :: l))
      with (x ++ String o (String.concat (String o "") (y :: l))).
    change (String.concat (String n "") (x :: y :: l))
      with (x ++ String n (String.concat (String n "") (y :: l))).
    rewrite replace_append, (replace_absent _ _ _ Hx). simpl replace at 1.
    rewrite Ascii.eqb_refl. f_equal. f_equal. now apply IH.
Qed.

Lemma truthy_join (sep : string) (l : list string) :
  l <> [] -> Forall (fun x => truthy x = true) l ->
  truthy (join sep l) = true.
Proof.
  unfold join. destruct l as [|x l]; intros Hne H; [congruence |].
  inversion H as [|? ? Hx Hl]; subst.
  destruct l as [|y l]; [exact Hx |].
  change (String.concat sep (x :: y :: l))
    with (x ++ sep ++ String.concat sep (y :: l)).
  now apply truthy_append_l.
Qed.

Lemma mem_join (c : ascii) (sep : string) (l : list string) :
  mem c sep = false -> Forall (fun x => mem c x = false) l ->
  mem c (join sep l) = false.
Proof.
  unfold join. intros Hsep. induction l as [|x l IH]; intros H;
    [reflexivity |].
  inversion H as [|? ? Hx Hl]; subst.
  destruct l as [|y l]; [exact Hx |].
  change (String.concat sep (x :: y :: l))
    with (x ++ sep ++ String.concat sep (y :: l)).
  rewrite !mem_append, Hx, Hsep. simpl. now apply IH.
Qed.

Lemma splitlines_nil (s : string) : splitlines s = [] <-> s = "".
Proof.
  split; intros H; [| now subst].
  destruct s as [|c s]; [reflexivity |]. simpl in H.
  destruct (is_linebreak c); [discriminate |].
  destruct (splitlines s); discriminate.
Qed.

(** The head of [splitlines] is the first line of the text. *)
Lemma splitlines_first (s l : string) (ls : list string) :
  splitlines s = l :: ls -> first_line_of s l.
Proof.
  revert l ls. induction s as [|c s IH]; intros l ls H; simpl in H.
  - discriminate.
  - destruct (is_linebreak c) eqn:Ec.
    + injection H as <- _. exists (String c s). repeat split.
      right. now exists c, s.
    + destruct (splitlines s) as [|l' ls'] eqn:Es.
      * injection H as <- _. apply splitlines_nil in Es. subst s.
        exists "". simpl. rewrite Ec. repeat split. now left.
      * injection H as <- _.
        destruct (IH l' ls' eq_refl) as (rest & Hs & Hl & Hrest).
        exists rest. simpl. rewrite Ec, Hl, <- Hs. now repeat split.
Qed.

End PyStrFacts.

(* ================================================================= *)
(** * Facts about [pathlib] *)

Module pathlibFacts.
Import PyStr PyStrFacts pathlib.

Lemma posix_splitroot_root (part drv root rel : string) :
  posix_splitroot part = (drv, root, rel) ->
  truthy root = true -> mem "/"%char root = true.
Proof.
  unfold posix_splitroot. destruct part as [|c part]; intros H Ht.
  - injection H as _ <- _. discriminate.
  - destruct (Ascii.eqb c "/"%char).
    + destruct (_ =? 2)%nat; injection H as _ <- _; reflexivity.
    + injection H as _ <- _. discriminate.
Qed.

Lemma splitroot_unc_root (prefix part drv root rel : string) :
  splitroot_unc prefix part = Some (drv, root, rel) ->
  root = String backslash "".
Proof.
  unfold splitroot_unc. intros H.
  destruct (_ && _ && _); [| discriminate].
  destruct (find_from backslash 2 part) as [index|]; [| discriminate].
  destruct (find_from backslash (index + 1) part) as [i|].
  - destruct (i =? index + 1)%nat; [discriminate |].
    destruct (truthy prefix); now injection H as _ <- _.
  - destruct (truthy prefix); now injection H as _ <- _.
Qed.

Lemma splitroot_drive_root (prefix part drv root rel : string) :
  splitroot_drive prefix part = (drv, root, rel) ->
  root = "" \/ root = String backslash "".
Proof.
  unfold splitroot_drive. intros H.
  destruct (_ && _).
  - destruct (slice 2 3 part =? String backslash "") eqn:E;
      injection H as _ <- _; [right | left]; [| reflexivity].
    now apply String.eqb_eq.
  - destruct (slice 0 1 part =? String backslash "") eqn:E;
      injection H as _ <- _; [right | left]; [| reflexivity].
    now apply String.eqb_eq.
Qed.

Lemma windows_splitroot_root (part drv root rel : string) :
  windows_splitroot part = (drv, root, rel) ->
  truthy root = true -> mem backslash root = true.
Proof.
  unfold windows_splitroot. intros H Ht.
  destruct (if (slice 1 2 part =? String backslash "")
               && (slice 0 1 part =? String backslash "")
            then _split_extended_path part else ("", part))
    as [prefix part'].
  destruct (splitroot_unc prefix part') as [r|] eqn:Eunc.
  - subst r. apply splitroot_unc_root in Eunc. now subst root.
  - apply splitroot_drive_root in H as [-> | ->];
      [discriminate | reflexivity].
Qed.

Lemma splitroot_root (fl : Flavour) (part drv root rel : string) :
  splitroot fl part = (drv, root, rel) ->
  truthy root = true -> mem (sep fl) root = true.
Proof.
  destruct fl; simpl.
  - apply posix_splitroot_root.
  - apply windows_splitroot_root.
Qed.

Lemma keeps_truthy (x : string) : keeps x = true -> truthy x = true.
Proof. unfold keeps. intros H. now apply andb_true_iff in H. Qed.

(** Every path that [parse_parts] builds is [parsed]. *)
Lemma parse_parts_parsed (fl : Flavour) (part : string) :
  parsed fl (parse_parts fl part).
Proof.
  unfold parse_parts. destruct (truthy part).
  2: { split; unfold components; simpl; try constructor; discriminate. }
  destruct (splitroot fl _) as [[drv root] rel] eqn:Es.
  assert (Hc : Forall (fun x => mem (sep fl) x = false /\ truthy x = true)
                 (filter keeps (split (sep fl) rel))).
  { apply Forall_forall. intros x Hx. apply filter_In in Hx as [Hin Hk].
    split; [| now apply keeps_truthy].
    pose proof (split_absent (sep fl) rel) as Hs.
    rewrite Forall_forall in Hs. now apply Hs. }
  destruct (truthy drv || truthy root) eqn:Ea;
    split; unfold components; simpl; rewrite ?Ea; simpl;
    try reflexivity; try exact Hc;
    now apply (splitroot_root fl _ _ _ _ Es).
Qed.

(** Case folding neither makes nor unmakes a backslash. *)
Lemma lower_char_backslash (c : ascii) :
  Ascii.eqb (lower_char c) backslash = Ascii.eqb c backslash.
Proof.
  destruct c as [b0 b1 b2 b3 b4 b5 b6 b7];
    destruct b0, b1, b2, b3, b4, b5, b6, b7; reflexivity.
Qed.

Lemma casefold_mem (fl : Flavour) (x : string) :
  mem (sep fl) (casefold fl x) = mem (sep fl) x.
Proof.
  destruct fl; simpl; [reflexivity |].
  induction x as [|c x IH]; simpl; [reflexivity |].
  now rewrite lower_char_backslash, IH.
Qed.

Lemma casefold_truthy (fl : Flavour) (x : string) :
  truthy (casefold fl x) = truthy x.
Proof. destruct fl, x; reflexivity. Qed.

(** A component and a root differ, also after case folding. *)
Lemma casefold_component_root (fl : Flavour) (x root : string) :
  mem (sep fl) x = false -> mem (sep fl) root = true ->
  (casefold fl x =? casefold fl root) = false.
Proof.
  intros Hx Hr. apply String.eqb_neq. intros E.
  apply (f_equal (mem (sep fl))) in E.
  rewrite !casefold_mem in E. congruence.
Qed.

(** Comparing as many heads of [a] as [b] is long is testing that [b]
    leads [a]. *)
Lemma list_eqb_firstn (a b : list string) :
  list_eqb (firstn (List.length b) a) b = is_prefix b a.
Proof.
  revert a. induction b as [|y b IH]; intros [|x a]; simpl;
    try reflexivity.
  now rewrite IH, String.eqb_sym.
Qed.

Lemma Forall_skipn {A} (P : A -> Prop) (k : nat) (l : list A) :
  Forall P l -> Forall P (skipn k l).
Proof.
  revert l. induction k as [|k IH]; intros [|x l] H; simpl;
    try exact H.
  inversion H; subst. now apply IH.
Qed.

(** The parts of a path without a root cannot start like the parts of a
    path with one: its second part, if any, is a component. *)
Lemma list_eqb_unrooted (fl : Flavour) (self : PurePath) (n : nat)
      (d r : string) (rest : list string) :
  parsed fl self -> truthy (_root self) = false ->
  mem (sep fl) r = true ->
  list_eqb (casefold_parts fl (firstn (S (S n)) (_parts self)))
           (casefold fl d :: casefold fl r :: rest) = false.
Proof.
  intros [Hp Hc _] Hroot Hr.
  assert (Htl : Forall (fun x => mem (sep fl) x = false)
                  (tl (_parts self))).
  { rewrite Hp. rewrite Hroot, orb_false_r.
    assert (Hc' : Forall (fun x => mem (sep fl) x = false)
                    (components self)).
    { eapply Forall_impl; [| exact Hc]. now intros x [H _]. }
    destruct (truthy (_drv self)); simpl; [exact Hc' |].
    destruct (components self); simpl; [constructor |].
    now inversion Hc'. }
  destruct (_parts self) as [|x [|y l]]; simpl in *; try reflexivity.
  - now rewrite andb_false_r.
  - inversion Htl as [|? ? Hy _]; subst.
    now rewrite (casefold_component_root fl y r Hy Hr), andb_false_r.
Qed.

(** [relative_to] against a path with a root: the components below it
    when the path lies under it, [ValueError] otherwise. *)
Lemma relative_to_under (fl : Flavour) (self other : PurePath) :
  parsed fl self -> parsed fl other -> truthy (_root other) = true ->
  relative_to fl self other =
  if lies_under fl self other
  then Return (from_parsed_parts "" "" (below self other))
  else Raise ValueError.
Proof.
  intros Hs Ho Hroot.
  assert (Hao : abs_parts other =
                _drv other :: _root other :: components other).
  { unfold abs_parts, components. now rewrite Hroot, orb_true_r. }
  unfold relative_to, lies_under, below. rewrite Hao.
  cbn [List.length Nat.eqb]. unfold casefold_parts at 2. cbn [map].
  destruct (truthy (_root self)) eqn:Ers.
  - assert (Has : abs_parts self =
                  _drv self :: _root self :: components self).
    { unfold abs_parts, components. now rewrite Ers, orb_true_r. }
    rewrite Has. cbn [firstn]. unfold casefold_parts at 1. cbn [map list_eqb].
    fold (casefold_parts fl (components other)).
    fold (casefold_parts fl (firstn (List.length (components other))
                               (components self))).
    replace (casefold_parts fl (firstn (List.length (components other))
                                  (components self)))
      with (firstn (List.length (casefold_parts fl (components other)))
              (casefold_parts fl (components self))).
    2: { unfold casefold_parts. now rewrite length_map, firstn_map. }
    rewrite list_eqb_firstn, andb_assoc.
    now destruct (_ && _ && _).
  - assert (Has : abs_parts self = _parts self).
    { unfold abs_parts. now rewrite Ers. }
    rewrite Has, (list_eqb_unrooted fl self _ _ _ _ Hs Ers
                    (parsed_root _ _ Ho Hroot)).
    cbn [negb].
    replace (casefold fl (_root self) =? casefold fl (_root other))
      with false; [now rewrite andb_false_r |].
    symmetry. apply String.eqb_neq. intros E.
    apply (f_equal truthy) in E. rewrite !casefold_truthy in E. congruence.
Qed.

(** [as_posix] of a relative path made of components of a parsed path:
    the components joined by forward slashes, whatever the flavour. *)
Lemma as_posix_components (fl : Flavour) (rest : list string) :
  Forall (fun x => mem (sep fl) x = false /\ truthy x = true) rest ->
  as_posix fl (from_parsed_parts "" "" rest) = posix_join rest.
Proof.
  intros H. unfold as_posix, str, _format_parsed_parts. cbn.
  destruct rest as [|x rest].
  - destruct fl; reflexivity.
  - rewrite truthy_join; [| discriminate |].
    + unfold sep_str, posix_join. apply replace_join.
      eapply Forall_impl; [| exact H]. now intros y [Hy _].
    + eapply Forall_impl; [| exact H]. now intros y [_ Hy].
Qed.

Lemma list_eqb_eq (a b : list string) : list_eqb a b = true -> a = b.
Proof.
  revert b. induction a as [|x a IH]; intros [|y b] H; simpl in H;
    try discriminate; [reflexivity |].
  apply andb_true_iff in H as [Hx Hab].
  apply String.eqb_eq in Hx. f_equal; auto.
Qed.

(** A path that lies under another is that other path, up to case
    folding, followed by the components below it. *)
Lemma lies_under_split (fl : Flavour) (self other : PurePath) :
  lies_under fl self other = true ->
  exists pre,
    components self = (pre ++ below self other)%list /\
    casefold_parts fl pre = casefold_parts fl (components other).
Proof.
  unfold lies_under, below. intros H.
  apply andb_true_iff in H as [_ H].
  exists (firstn (List.length (components other)) (components self)).
  split; [now rewrite firstn_skipn |].
  rewrite <- list_eqb_firstn in H. apply list_eqb_eq in H.
  unfold casefold_parts in *. now rewrite length_map, firstn_map in H.
Qed.

(** The host separator does not occur in [posix_join], unless it is the
    forward slash itself. *)
Lemma mem_posix_join (fl : Flavour) (rest : list string) :
  sep fl <> "/"%char ->
  Forall (fun x => mem (sep fl) x = false /\ truthy x = true) rest ->
  mem (sep fl) (posix_join rest) = false.
Proof.
  intros Hsep H. destruct rest as [|x rest]; [now destruct fl |].
  unfold posix_join. apply mem_join.
  - cbn [mem]. rewrite orb_false_r. apply Ascii.eqb_neq. congruence.
  - eapply Forall_impl; [| exact H]. now intros y [Hy _].
Qed.

Lemma as_posix_below (fl : Flavour) (self other : PurePath) :
  parsed fl self ->
  as_posix fl (from_parsed_parts "" "" (below self other)) =
  posix_join (below self other).
Proof.
  intros Hs. apply as_posix_components, Forall_skipn, (parsed_components _ _ Hs).
Qed.

End pathlibFacts.

(* ================================================================= *)
(** * The model at work *)

Module Examples.
Import pathlib.

(** Parsing collapses dots and repeated separators. *)
Example parse_posix :
  parse_parts PosixFlavour "/home/bot/./bot//exts/source.py" =
  from_parsed_parts "" "/" ["/"; "home"; "bot"; "bot"; "exts"; "source.py"].
Proof. reflexivity. Qed.

(** Exactly two leading slashes make a root of their own. *)
Example parse_posix_two_slashes :
  _root (parse_parts PosixFlavour "//home/bot") = "//" /\
  _root (parse_parts PosixFlavour "///home/bot") = "/".
Proof. split; reflexivity. Qed.

(** On Windows both separators split, and the drive is kept apart. *)
Example parse_windows :
  parse_parts WindowsFlavour
    ("C:" ++ String backslash "Bot" ++ String backslash "exts/source.py") =
  from_parsed_parts "C:" (String backslash "")
    ["C:" ++ String backslash ""; "Bot"; "exts"; "source.py"].
Proof. reflexivity. Qed.

(** A path relative to itself is the dot. *)
Example relative_to_itself :
  match relative_to PosixFlavour (parse_parts PosixFlavour "/home/bot")
          (parse_parts PosixFlavour "/home/bot") with
  | Return p => as_posix PosixFlavour p = "."
  | Raise _ => False
  end.
Proof. reflexivity. Qed.

(** A sibling directory with a longer name is not below. *)
Example relative_to_sibling :
  relative_to PosixFlavour (parse_parts PosixFlavour "/home/botx/a.py")
    (parse_parts PosixFlavour "/home/bot") = Raise ValueError.
Proof. reflexivity. Qed.

Example splitlines_breaks :
  PyStr.splitlines
    ("ab" ++ Sample.LF ++ "cd" ++ String "013"%char Sample.LF ++
     Sample.LF ++ "e" ++ Sample.LF) = ["ab"; "cd"; ""; "e"].
Proof. reflexivity. Qed.

Example source_link :
  get_source_link PosixFlavour Sample.Client (ItemCommand Sample.source)
    Sample.world =
  (Return
     ("https://github.com/python-discord/sir-robin/blob/main/bot/exts/source.py#L19-L21",
      "bot/exts/source.py", Some 19%Z),
   Sample.world).
Proof. reflexivity. Qed.

Example windows_source_link :
  get_source_link WindowsFlavour Sample.Client
    (ItemCommand Sample.windows_source) Sample.windows_world =
  (Return
     ("https://github.com/python-discord/sir-robin/blob/main/bot/exts/source.py#L19-L20",
      "bot/exts/source.py", Some 19%Z),
   Sample.windows_world).
Proof. reflexivity. Qed.

(** The guard around [getsourcelines] at work, on a command made at run
    time. *)
Example evaluated_command_link :
  get_source_link PosixFlavour Sample.Client (ItemCommand Sample.evaluated)
    Sample.world =
  (Raise (BadArgument "Cannot get source for a dynamically-created object."),
   Sample.world).
Proof. reflexivity. Qed.

Example dynamic_cog_link :
  get_source_link PosixFlavour Sample.Client (ItemCog Sample.Dynamic)
    Sample.world =
  (Raise (BadArgument "Cannot get source for a dynamically-created object."),
   Sample.world).
Proof. reflexivity. Qed.

(** A [str] item never resolves: its type is built in. *)
Example str_link :
  get_source_link PosixFlavour Sample.Client (ItemStr "tag") Sample.world =
  (Raise (BadArgument "Cannot get source for a dynamically-created object."),
   Sample.world).
Proof. reflexivity. Qed.

(** The command on a cog sends the embed of the cog. *)
Example source_command_on_cog :
  source_command PosixFlavour Sample.Client {| channel := 1 |}
    (Some (ItemCog Sample.BotSource)) Sample.world =
  (Return tt,
   {| os_getcwd := "/home/bot";
      sent :=
        [({| channel := 1 |},
          {| Embed.title := Some "Cog: BotSource";
             Embed.description :=
               Some "Displays information about the bot's source code.";
             Embed.fields :=
               [("Source Code",
                 "[Go to GitHub](https://github.com/python-discord/sir-robin/blob/main/bot/exts/source.py#L13-L14)")];
             Embed.thumbnail := None;
             Embed.footer := Some "bot/exts/source.py:13" |})] |}).
Proof. reflexivity. Qed.

(** An error of [build_embed] leaves nothing sent. *)
Example source_command_on_library_command :
  source_command PosixFlavour Sample.Client {| channel := 1 |}
    (Some (ItemCommand Sample.library_command)) Sample.world =
  (Raise ValueError, Sample.world).
Proof. reflexivity. Qed.

End Examples.

(* ================================================================= *)
(** * Facts about the cog *)

Section BotSourceFacts.

Variable host : pathlib.Flavour.
Variable Client : ClientConfig.

Import PyStr PyStrFacts pathlib pathlibFacts.

Ltac run_link :=
  unfold get_source_link, bind, ret, raise, lift, Path_cwd,
    inspect.getsourcefile, inspect.getsourcelines, Path; cbn.

(** [get_source_link] on an item that the introspection data locate:
    everything is decided by [relative_to]. *)
Lemma get_source_link_located (item : SourceType) (w : World)
      (filename : string) (lines : list string) (n : Z) :
  located item filename lines n ->
  get_source_link host Client item w =
  match relative_to host (parse_parts host filename) (cwd_path host w) with
  | Return rel =>
      (Return (blob_url Client (as_posix host rel) n
                 (n + Z.of_nat (List.length lines) - 1),
               as_posix host rel, or_None (Some n)), w)
  | Raise e => (Raise e, w)
  end.
Proof.
  unfold cwd_path.
  destruct item as [h | c | g | s]; cbn [located type_of];
    try contradiction; intros [Hf Hl]; run_link;
    unfold command_code in *; cbn [type_of]; rewrite ?Hf, ?Hl; cbn;
    destruct (relative_to host _ _); reflexivity.
Qed.

(** It returns only on items that the introspection data locate. *)
Lemma get_source_link_inv (item : SourceType) (w : World)
      (r : string * string * option Z) :
  fst (get_source_link host Client item w) = Return r ->
  exists filename lines n, located item filename lines n.
Proof.
  run_link. destruct item as [h | c | g | s]; cbn [located type_of];
    unfold command_code; cbn.
  - destruct (inspect.class_sourcefile _) as [[f|]|[]];
      destruct (inspect.class_sourcelines _) as [[lines n]|[]];
      cbn; try discriminate; eauto 6.
  - destruct (inspect.code_sourcelines _) as [[lines n]|[]];
      cbn; try discriminate; eauto 6.
  - destruct (inspect.class_sourcefile _) as [[f|]|[]];
      destruct (inspect.class_sourcelines _) as [[lines n]|[]];
      cbn; try discriminate; eauto 6.
  - discriminate.
Qed.

(** *** Read-only computations *)

Lemma read_only_ret {A} (a : A) : read_only (ret a).
Proof. split; reflexivity. Qed.

Lemma read_only_raise {A} (e : exn) : read_only (@raise A e).
Proof. split; reflexivity. Qed.

Lemma read_only_lift {A} (o : outcome A) : read_only (lift o).
Proof. split; reflexivity. Qed.

Lemma read_only_Path_cwd : read_only (Path_cwd host).
Proof.
  split; [reflexivity |]. intros w1 w2 E. unfold Path_cwd. cbn. now rewrite E.
Qed.

Lemma read_only_bind {A B} (m : M A) (k : A -> M B) :
  read_only m -> (forall a, read_only (k a)) -> read_only (bind m k).
Proof.
  intros [Hm1 Hm2] Hk. split.
  - intros w. unfold bind. specialize (Hm1 w).
    destruct (m w) as [[a|e] w']; cbn in *; subst w';
      [apply (Hk a) | reflexivity].
  - intros w1 w2 E. unfold bind.
    pose proof (Hm1 w1) as F1. pose proof (Hm1 w2) as F2.
    specialize (Hm2 w1 w2 E).
    destruct (m w1) as [[a1|e1] w1'], (m w2) as [[a2|e2] w2'];
      cbn in *; subst; try discriminate.
    + injection Hm2 as <-. now apply (Hk a1).
    + now injection Hm2 as <-.
Qed.

Create HintDb read_only.
#[local] Hint Resolve read_only_ret read_only_raise read_only_lift
  read_only_Path_cwd : read_only.

(** [get_source_link] is built from read-only steps only. *)
Lemma get_source_link_read_only (item : SourceType) :
  read_only (get_source_link host Client item).
Proof.
  unfold get_source_link.
  apply read_only_bind.
  { destruct item; auto with read_only;
      destruct (inspect.getsourcefile _) as [f|[]]; auto with read_only. }
  intros [[is_str src] filename]. apply read_only_bind.
  { destruct (negb is_str); auto with read_only.
    destruct (inspect.getsourcelines src) as [[lines n]|[]];
      auto with read_only. }
  intros [first_line_no lines_extension].
  repeat (apply read_only_bind; [auto with read_only | intros ?]).
  auto with read_only.
Qed.

(** [send] is not read-only: the methods of the cog are able to change
    the state. *)
Lemma send_not_read_only (ctx : Context) (embed : Embed.t) :
  ~ read_only (send ctx embed).
Proof.
  intros [H _]. specialize (H {| os_getcwd := ""; sent := [] |}).
  discriminate H.
Qed.

Lemma is_absolute_root (p : PurePath) :
  is_absolute host p = true -> truthy (_root p) = true.
Proof. unfold is_absolute. now destruct (truthy (_root p)). Qed.

(** [get_source_link] on a located item whose file lies under the working
    directory. *)
Lemma get_source_link_under (item : SourceType) (w : World)
      (filename : string) (lines : list string) (n : Z) :
  located item filename lines n ->
  is_absolute host (cwd_path host w) = true ->
  lies_under host (parse_parts host filename) (cwd_path host w) = true ->
  let file_location :=
    posix_join (below (parse_parts host filename) (cwd_path host w)) in
  get_source_link host Client item w =
  (Return (blob_url Client file_location n
             (n + Z.of_nat (List.length lines) - 1),
           file_location, or_None (Some n)), w).
Proof.
  intros Hloc Habs Hunder. cbv zeta.
  rewrite (get_source_link_located _ _ _ _ _ Hloc).
  unfold cwd_path in *.
  rewrite relative_to_under, Hunder;
    auto using parse_parts_parsed, is_absolute_root.
  now rewrite as_posix_below by apply parse_parts_parsed.
Qed.

(** The line number [get_source_link] returns is never a zero. *)
Lemma get_source_link_first_line (item : SourceType) (w w' : World)
      (url location : string) (first_line : option Z) :
  get_source_link host Client item w =
    (Return (url, location, first_line), w') ->
  match first_line with
  | Some n => int_truthy n = true
  | None => True
  end.
Proof.
  intros E.
  destruct (get_source_link_inv item w (url, location, first_line))
    as (filename & lines & n & Hloc); [now rewrite E |].
  rewrite (get_source_link_located _ _ _ _ _ Hloc) in E.
  destruct (relative_to host _ _); [| discriminate].
  injection E as _ _ <- _. unfold or_None.
  now destruct (int_truthy n) eqn:En.
Qed.

(** A returned link is that of a located item whose file lies under the
    working directory. *)
Lemma get_source_link_returns (item : SourceType) (w : World)
      (url location : string) (first_line : option Z) :
  is_absolute host (cwd_path host w) = true ->
  fst (get_source_link host Client item w) =
    Return (url, location, first_line) ->
  exists filename lines n,
    located item filename lines n /\
    lies_under host (parse_parts host filename) (cwd_path host w) = true /\
    location =
      posix_join (below (parse_parts host filename) (cwd_path host w)) /\
    url = blob_url Client location n (n + Z.of_nat (List.length lines) - 1) /\
    first_line = or_None (Some n).
Proof.
  intros Habs E.
  destruct (get_source_link_inv item w _ E) as (filename & lines & n & Hloc).
  exists filename, lines, n. split; [exact Hloc |].
  destruct (lies_under host (parse_parts host filename) (cwd_path host w))
    eqn:Hunder.
  - rewrite (get_source_link_under _ _ _ _ _ Hloc Habs Hunder) in E.
    cbn in E. injection E as <- <- <-. now repeat split.
  - rewrite (get_source_link_located _ _ _ _ _ Hloc) in E.
    unfold cwd_path in *.
    rewrite relative_to_under, Hunder in E;
      [discriminate | apply parse_parts_parsed ..
      | now apply is_absolute_root].
Qed.

(** [build_embed] returns on every summarizable item that
    [get_source_link] resolves, and leaves the state as it found it. *)
Lemma build_embed_returns (item : SourceType) (w : World)
      (r : string * string * option Z) :
  fst (get_source_link host Client item w) = Return r ->
  summarizable item ->
  exists embed, build_embed host Client item w = (Return embed, w).
Proof.
  intros Hr Hs. unfold build_embed, bind.
  pose proof (proj1 (get_source_link_read_only item) w) as Hw.
  destruct (get_source_link host Client item w)
    as [[[[url location] first_line]|e] w']; cbn in Hr, Hw;
    [subst w' | discriminate].
  destruct item as [h | c | g | s]; cbn in Hs; try contradiction.
  - eexists. reflexivity.
  - destruct (splitlines (Cog.description g)) as [|line ls] eqn:Es.
    + now apply splitlines_nil in Es.
    + eexists. reflexivity.
Qed.

End BotSourceFacts.

(* ================================================================= *)
(** * The claims of the specification *)

Section Claims.

Variable host : pathlib.Flavour.
Variable Client : ClientConfig.

Import PyStr PyStrFacts pathlib pathlibFacts.

(** C1.  A cog whose class was typed into a session has no source file:
    the module is [__main__] without a file, and [inspect.getsourcefile]
    reports it with [OSError].  On that cog [get_source_link] does not
    raise [BadArgument]: the [OSError] comes out as it is, because the
    guard around [getsourcefile] names [TypeError] only (the guard around
    [getsourcelines] does name [OSError]). *)
Theorem C1_interactive_cog_raises_OSError :
  inspect.getsourcefile (Cog.type Sample.Interactive) = Raise OSError /\
  get_source_link pathlib.PosixFlavour Sample.Client
    (ItemCog Sample.Interactive) Sample.world =
  (Raise OSError, Sample.world) /\
  get_source_link pathlib.PosixFlavour Sample.Client
    (ItemCog Sample.Interactive) Sample.world <>
  (Raise (BadArgument "Cannot get source for a dynamically-created object."),
   Sample.world).
Proof. repeat split. discriminate. Qed.

(** C2.  Whenever [get_source_link] returns a link for a command, the link
    ends in [#L{n}-L{m}], where [n] is the first source line of the
    unwrapped callback of the command and [m - n + 1] is the number of its
    source lines, so that [m >= n] as soon as there is a source line.  And
    it does return a link for every statically defined command: one whose
    callback has retrievable source lines, in a file under the working
    directory of the process. *)
Theorem C2_command_line_range (c : Command.t) (w : World) :
  is_absolute host (cwd_path host w) = true ->
  (forall (url location : string) (first_line : option Z),
      fst (get_source_link host Client (ItemCommand c) w) =
        Return (url, location, first_line) ->
      exists (lines : list string) (n m : Z),
        inspect.code_sourcelines (command_code c) = Return (lines, n) /\
        url = github_bot_repo Client ++ "/blob/main/" ++ location ++
              "#L" ++ str_of_int n ++ "-L" ++ str_of_int m /\
        (m - n + 1 = Z.of_nat (List.length lines))%Z /\
        (lines <> [] -> (m >= n)%Z)) /\
  (forall (lines : list string) (n : Z),
      inspect.code_sourcelines (command_code c) = Return (lines, n) ->
      lies_under host
        (parse_parts host (inspect.co_filename (command_code c)))
        (cwd_path host w) = true ->
      exists r, get_source_link host Client (ItemCommand c) w = (Return r, w)).
Proof.
  intros Habs. split.
  - intros url location first_line E.
    destruct (get_source_link_returns host Client _ _ _ _ _ Habs E)
      as (filename & lines & n & [_ Hl] & _ & _ & Hurl & _).
    exists lines, n, (n + Z.of_nat (List.length lines) - 1)%Z.
    repeat split; [exact Hl | exact Hurl | lia |].
    destruct lines as [|l lines]; [congruence |]. cbn [List.length]. lia.
  - intros lines n Hl Hunder. eexists.
    apply get_source_link_under; [split; [reflexivity | exact Hl] | |];
      assumption.
Qed.

(** C3.  Whenever [build_embed] produces an embed for a cog, its title is
    ["Cog: "] followed by the qualified name of the cog, and its
    description is the first line of the description of the cog and
    nothing more, however many lines that description has.  And it does
    produce an embed for every cog that [get_source_link] resolves and
    whose description is not empty. *)
Theorem C3_cog_title_and_first_line (g : Cog.t) (w : World) :
  (forall embed : Embed.t,
      fst (build_embed host Client (ItemCog g) w) = Return embed ->
      Embed.title embed = Some ("Cog: " ++ Cog.qualified_name g) /\
      exists line : string,
        Embed.description embed = Some line /\
        first_line_of (Cog.description g) line) /\
  (forall r : string * string * option Z,
      fst (get_source_link host Client (ItemCog g) w) = Return r ->
      Cog.description g <> "" ->
      exists embed : Embed.t,
        build_embed host Client (ItemCog g) w = (Return embed, w)).
Proof.
  split.
  - unfold build_embed, bind. intros embed H.
    destruct (get_source_link host Client (ItemCog g) w)
      as [[[[url location] first_line]|e] w']; [| discriminate].
    destruct (splitlines (Cog.description g)) as [|line ls] eqn:Es;
      [discriminate |].
    injection H as <-. split; [reflexivity |].
    exists line. split; [reflexivity |]. now apply splitlines_first in Es.
  - intros r Hr Hd. now apply (build_embed_returns host Client _ _ r).
Qed.

(** C4.  Invoked without a source item, the command sends one embed whose
    link is the configured repository URL itself, without a line range,
    and which has no footer, that is, no source location. *)
Theorem C4_no_item_links_repository (ctx : Context) (w : World) :
  source_command host Client ctx None w =
  (Return tt,
   {| os_getcwd := os_getcwd w;
      sent :=
        List.app (sent w)
         [(ctx,
           {| Embed.title := Some "Sir Robin's GitHub Repository";
              Embed.description := None;
              Embed.fields :=
                [("Repository",
                  "[Go to GitHub](" ++ github_bot_repo Client ++ ")")];
              Embed.thumbnail :=
                Some "https://avatars1.githubusercontent.com/u/9919";
              Embed.footer := None |})] |}).
Proof. reflexivity. Qed.

(** C5.  When the source item is the help command of the framework, the
    command sends an embed with a fixed title and description whose link
    is the repository URL, whatever the introspection data of the help
    command say about where it is implemented. *)
Theorem C5_help_command_is_fixed (ctx : Context) (h : HelpCommand.t)
        (w : World) :
  source_command host Client ctx (Some (ItemHelpCommand h)) w =
  (Return tt,
   {| os_getcwd := os_getcwd w;
      sent :=
        List.app (sent w)
         [(ctx,
           {| Embed.title := Some "Help Command";
              Embed.description :=
                Some "We use Discord.py's default help command.";
              Embed.fields :=
                [("Repository",
                  "[Go to GitHub](" ++ github_bot_repo Client ++ ")")];
              Embed.thumbnail :=
                Some "https://avatars1.githubusercontent.com/u/9919";
              Embed.footer := None |})] |}).
Proof. reflexivity. Qed.

(** C6.  Whenever [get_source_link] returns, the link is the repository
    URL, [/blob/main/], the relative file path and the line range
    [#L{first}-L{last}].  The relative file path is made of the components of
    the file of the item below the working directory of the process,
    joined by forward slashes on every host: on a host with another
    separator, that separator does not occur in it.  And it does return
    whenever the introspection data locate the item in a file under the
    working directory. *)
Theorem C6_link_format (item : SourceType) (w : World) :
  is_absolute host (cwd_path host w) = true ->
  (forall (url location : string) (first_line : option Z),
      fst (get_source_link host Client item w) =
        Return (url, location, first_line) ->
      exists (filename : string) (lines : list string) (n : Z)
             (pre rest : list string),
        located item filename lines n /\
        components (parse_parts host filename) = (pre ++ rest)%list /\
        casefold_parts host pre =
          casefold_parts host (components (cwd_path host w)) /\
        location = posix_join rest /\
        url = github_bot_repo Client ++ "/blob/main/" ++ location ++
              "#L" ++ str_of_int n ++ "-L" ++
              str_of_int (n + Z.of_nat (List.length lines) - 1) /\
        (sep host <> "/"%char -> mem (sep host) location = false)) /\
  (forall (filename : string) (lines : list string) (n : Z),
      located item filename lines n ->
      lies_under host (parse_parts host filename) (cwd_path host w) = true ->
      exists r, get_source_link host Client item w = (Return r, w)).
Proof.
  intros Habs. split.
  - intros url location first_line E.
    destruct (get_source_link_returns host Client _ _ _ _ _ Habs E)
      as (filename & lines & n & Hloc & Hunder & Hlocation & Hurl & _).
    destruct (lies_under_split _ _ _ Hunder) as (pre & Hsplit & Hpre).
    exists filename, lines, n, pre,
      (below (parse_parts host filename) (cwd_path host w)).
    repeat split; try assumption.
    intros Hsep. rewrite Hlocation. apply mem_posix_join; [exact Hsep |].
    apply Forall_skipn, parsed_components, parse_parts_parsed.
  - intros filename lines n Hloc Hunder. eexists.
    apply (get_source_link_under host Client _ _ _ _ _ Hloc Habs Hunder).
Qed.

(** C7.  Whenever [build_embed] produces an embed, its footer is the file
    location that [get_source_link] returns, followed by a colon and the
    first line number; the colon and the number are left out exactly
    when [get_source_link] returns no first line number.  And it does
    produce an embed for every summarizable item that [get_source_link]
    resolves. *)
Theorem C7_footer (item : SourceType) (w : World) :
  (forall embed : Embed.t,
      fst (build_embed host Client item w) = Return embed ->
      exists (url location : string) (first_line : option Z),
        fst (get_source_link host Client item w) =
          Return (url, location, first_line) /\
        Embed.footer embed =
          Some (location ++
                match first_line with
                | Some n => ":" ++ str_of_int n
                | None => ""
                end) /\
        (Embed.footer embed = Some location <-> first_line = None)) /\
  (forall r : string * string * option Z,
      fst (get_source_link host Client item w) = Return r ->
      summarizable item ->
      exists embed : Embed.t,
        build_embed host Client item w = (Return embed, w)).
Proof.
  split; [| apply build_embed_returns].
  unfold build_embed, bind. intros embed H.
  destruct (get_source_link host Client item w)
    as [[[[url location] first_line]|e] w'] eqn:E; [| discriminate].
  apply get_source_link_first_line in E.
  exists url, location, first_line.
  assert (Hfoot : Embed.footer embed =
                  Some (location ++
                        match first_line with
                        | Some n => ":" ++ str_of_int n
                        | None => ""
                        end)).
  { destruct item as [h | c | g | s]; cbn in H; try discriminate.
    - injection H as <-. cbn. destruct first_line as [n|]; [| reflexivity].
      now rewrite E.
    - destruct (splitlines (Cog.description g)); [discriminate |].
      injection H as <-. cbn. destruct first_line as [n|]; [| reflexivity].
      now rewrite E. }
  repeat split; [exact Hfoot | |].
  - rewrite Hfoot. intros Hl. injection Hl as Hl.
    apply append_eq_self in Hl.
    destruct first_line; [discriminate | reflexivity].
  - intros ->. now rewrite Hfoot, append_nil_r.
Qed.

(** C9.  [build_embed] needs the description of a cog not to be empty:
    on a cog that [get_source_link] resolves, it raises [IndexError],
    unhandled, exactly when the description is the empty string, and then
    the state is unchanged and no embed is produced. *)
Theorem C9_empty_description (g : Cog.t) (w : World)
        (r : string * string * option Z) :
  fst (get_source_link host Client (ItemCog g) w) = Return r ->
  (Cog.description g = "" ->
   build_embed host Client (ItemCog g) w = (Raise IndexError, w)) /\
  (fst (build_embed host Client (ItemCog g) w) = Raise IndexError ->
   Cog.description g = "").
Proof.
  intros Hr. unfold build_embed, bind.
  pose proof (proj1 (get_source_link_read_only host Client (ItemCog g)) w)
    as Hw.
  destruct (get_source_link host Client (ItemCog g) w)
    as [[[[url location] first_line]|e] w']; cbn in Hr, Hw;
    [subst w' | discriminate].
  split.
  - now intros ->.
  - destruct (splitlines (Cog.description g)) eqn:Es; [| discriminate].
    intros _. now apply splitlines_nil.
Qed.


End Claims.


(* ================================================================= *)
(** * The claims on the sample data *)

(** C2 on the [source] command, whose callback has three source lines. *)
Lemma C2_command_line_range_witness :
  (exists (lines : list string) (n m : Z),
      inspect.code_sourcelines (command_code Sample.source) =
        Return (lines, n) /\
      "https://github.com/python-discord/sir-robin/blob/main/bot/exts/source.py#L19-L21" =
        github_bot_repo Sample.Client ++ "/blob/main/" ++
        "bot/exts/source.py" ++
        "#L" ++ str_of_int n ++ "-L" ++ str_of_int m /\
      (m - n + 1 = Z.of_nat (List.length lines))%Z /\
      (lines <> [] -> (m >= n)%Z)) /\
  (exists r,
      get_source_link pathlib.PosixFlavour Sample.Client
        (ItemCommand Sample.source) Sample.world = (Return r, Sample.world)).
Proof.
  destruct (C2_command_line_range pathlib.PosixFlavour Sample.Client
              Sample.source Sample.world eq_refl) as [A B].
  split.
  - apply (A _ _ (Some 19%Z)). reflexivity.
  - apply (B ["@commands.command()"; "async def source_command():";
              "    return"] 19%Z); reflexivity.
Defined.

(** C3 on the cog with a description of two lines. *)
Lemma C3_cog_title_and_first_line_witness :
  (Some "Cog: BotSource" = Some ("Cog: " ++ Cog.qualified_name Sample.BotSource) /\
   exists line : string,
     Some "Displays information about the bot's source code." = Some line /\
     PyStr.first_line_of (Cog.description Sample.BotSource) line) /\
  (exists embed : Embed.t,
      build_embed pathlib.PosixFlavour Sample.Client
        (ItemCog Sample.BotSource) Sample.world =
      (Return embed, Sample.world)).
Proof.
  destruct (C3_cog_title_and_first_line pathlib.PosixFlavour Sample.Client
              Sample.BotSource Sample.world) as [A B].
  split.
  - apply (A {| Embed.title := Some "Cog: BotSource";
                Embed.description :=
                  Some "Displays information about the bot's source code.";
                Embed.fields :=
                  [("Source Code",
                    "[Go to GitHub](https://github.com/python-discord/sir-robin/blob/main/bot/exts/source.py#L13-L14)")];
                Embed.thumbnail := None;
                Embed.footer := Some "bot/exts/source.py:13" |}).
    reflexivity.
  - apply (B ("https://github.com/python-discord/sir-robin/blob/main/bot/exts/source.py#L13-L14",
              "bot/exts/source.py", Some 13%Z)).
    + reflexivity.
    + discriminate.
Defined.

(** C6 on a Windows host: the separator of the host is the backslash, the
    location is written with forward slashes. *)
Lemma C6_link_format_witness :
  (exists (filename : string) (lines : list string) (n : Z)
          (pre rest : list string),
      located (ItemCommand Sample.windows_source) filename lines n /\
      pathlib.components (pathlib.parse_parts pathlib.WindowsFlavour filename)
        = (pre ++ rest)%list /\
      pathlib.casefold_parts pathlib.WindowsFlavour pre =
        pathlib.casefold_parts pathlib.WindowsFlavour
          (pathlib.components
             (cwd_path pathlib.WindowsFlavour Sample.windows_world)) /\
      "bot/exts/source.py" = pathlib.posix_join rest /\
      "https://github.com/python-discord/sir-robin/blob/main/bot/exts/source.py#L19-L20" =
        github_bot_repo Sample.Client ++ "/blob/main/" ++
        "bot/exts/source.py" ++
        "#L" ++ str_of_int n ++ "-L" ++
        str_of_int (n + Z.of_nat (List.length lines) - 1) /\
      (pathlib.sep pathlib.WindowsFlavour <> "/"%char ->
       PyStr.mem (pathlib.sep pathlib.WindowsFlavour) "bot/exts/source.py"
       = false)) /\
  (exists r,
      get_source_link pathlib.WindowsFlavour Sample.Client
        (ItemCommand Sample.windows_source) Sample.windows_world =
      (Return r, Sample.windows_world)).
Proof.
  destruct (C6_link_format pathlib.WindowsFlavour Sample.Client
              (ItemCommand Sample.windows_source) Sample.windows_world
              eq_refl) as [A B].
  split.
  - apply (A _ _ (Some 19%Z)). reflexivity.
  - apply (B (inspect.co_filename (command_code Sample.windows_source))
             ["async def source_command():"; "    return"] 19%Z).
    + split; reflexivity.
    + reflexivity.
Defined.

(** C7 on the [source] command: the footer names line 19. *)
Lemma C7_footer_witness :
  (exists (url location : string) (first_line : option Z),
      fst (get_source_link pathlib.PosixFlavour Sample.Client
             (ItemCommand Sample.source) Sample.world) =
        Return (url, location, first_line) /\
      Some "bot/exts/source.py:19" =
        Some (location ++
              match first_line with
              | Some n => ":" ++ str_of_int n
              | None => ""
              end) /\
      (Some "bot/exts/source.py:19" = Some location <-> first_line = None)) /\
  (exists embed : Embed.t,
      build_embed pathlib.PosixFlavour Sample.Client
        (ItemCommand Sample.source) Sample.world =
      (Return embed, Sample.world)).
Proof.
  destruct (C7_footer pathlib.PosixFlavour Sample.Client
              (ItemCommand Sample.source) Sample.world) as [A B].
  split.
  - apply (A {| Embed.title := Some "Command: source";
                Embed.description :=
                  Some "Display information and a GitHub link.";
                Embed.fields :=
                  [("Source Code",
                    "[Go to GitHub](https://github.com/python-discord/sir-robin/blob/main/bot/exts/source.py#L19-L21)")];
                Embed.thumbnail := None;
                Embed.footer := Some "bot/exts/source.py:19" |}).
    reflexivity.
  - apply (B ("https://github.com/python-discord/sir-robin/blob/main/bot/exts/source.py#L19-L21",
              "bot/exts/source.py", Some 19%Z)).
    + reflexivity.
    + exact I.
Defined.

(** C9 on the cog without a docstring. *)
Lemma C9_empty_description_witness :
  build_embed pathlib.PosixFlavour Sample.Client
    (ItemCog Sample.Undocumented) Sample.world =
  (Raise IndexError, Sample.world).
Proof.
  apply (C9_empty_description pathlib.PosixFlavour Sample.Client
           Sample.Undocumented Sample.world
           ("https://github.com/python-discord/sir-robin/blob/main/bot/exts/source.py#L13-L14",
            "bot/exts/source.py", Some 13%Z)).
  - reflexivity.
  - reflexivity.
Defined.



(* ================================================================= *)
(** * Further properties of the cog *)

Section Further.

Variable host : pathlib.Flavour.
Variable Client : ClientConfig.

Import PyStr PyStrFacts pathlib pathlibFacts.

(** [build_embed] is read-only too: sending is left to the command. *)
Lemma build_embed_read_only (item : SourceType) :
  read_only (build_embed host Client item).
Proof.
  unfold build_embed. apply read_only_bind.
  { apply get_source_link_read_only. }
  intros [[url location] first_line]. apply read_only_bind.
  { destruct item as [h | c | g | s];
      try apply read_only_raise; try apply read_only_ret.
    destruct (splitlines (Cog.description g));
      [apply read_only_raise | apply read_only_ret]. }
  intros [title description]. apply read_only_ret.
Qed.

(** The cases of [source_command] in the embedding, where sending
    succeeds. *)
Lemma source_command_cases (ctx : Context)
        (source_item : option SourceType) (w : World) :
  match source_command host Client ctx source_item w with
  | (Return _, w') =>
      os_getcwd w' = os_getcwd w /\
      exists embed : Embed.t,
        sent w' = (sent w ++ [(ctx, embed)])%list /\
        (embed = repository_embed Client \/
         embed = help_embed Client \/
         exists item,
           source_item = Some item /\
           fst (build_embed host Client item w) = Return embed)
  | (Raise e, w') =>
      w' = w /\
      exists item,
        source_item = Some item /\
        fst (build_embed host Client item w) = Raise e
  end.
Proof.
  unfold source_command.
  destruct (bool_of source_item) eqn:Eb; cbn [negb].
  2: { cbn. split; [reflexivity |]. eexists. split; [reflexivity |].
       now left. }
  destruct source_item as [item|]; [| discriminate].
  assert (Hbuild :
            match (embed <- build_embed host Client item ;; send ctx embed) w
            with
            | (Return _, w') =>
                os_getcwd w' = os_getcwd w /\
                exists embed : Embed.t,
                  sent w' = (sent w ++ [(ctx, embed)])%list /\
                  fst (build_embed host Client item w) = Return embed
            | (Raise e, w') =>
                w' = w /\ fst (build_embed host Client item w) = Raise e
            end).
  { unfold bind.
    pose proof (proj1 (build_embed_read_only item) w) as Hw.
    destruct (build_embed host Client item w) as [[embed|e] w'];
      cbn in Hw; subst w'; cbn; [| now split].
    split; [reflexivity |]. now exists embed. }
  destruct item as [h | c | g | s].
  - cbn. split; [reflexivity |]. eexists. split; [reflexivity |].
    right. now left.
  - destruct ((embed <- build_embed host Client (ItemCommand c) ;;
               send ctx embed) w) as [[u|e] w'].
    + destruct Hbuild as (Hc & embed & Hs & Hb). split; [exact Hc |].
      exists embed. split; [exact Hs |]. right. right. eauto.
    + destruct Hbuild as [-> Hb]. split; [reflexivity |]. eauto.
  - destruct ((embed <- build_embed host Client (ItemCog g) ;;
               send ctx embed) w) as [[u|e] w'].
    + destruct Hbuild as (Hc & embed & Hs & Hb). split; [exact Hc |].
      exists embed. split; [exact Hs |]. right. right. eauto.
    + destruct Hbuild as [-> Hb]. split; [reflexivity |]. eauto.
  - destruct ((embed <- build_embed host Client (ItemStr s) ;;
               send ctx embed) w) as [[u|e] w'].
    + destruct Hbuild as (Hc & embed & Hs & Hb). split; [exact Hc |].
      exists embed. split; [exact Hs |]. right. right. eauto.
    + destruct Hbuild as [-> Hb]. split; [reflexivity |]. eauto.
Qed.

(** X1.  Whenever [source_command] returns, exactly one embed was sent: it
    comes after the messages sent before, goes to the invoking context,
    and is one of the two fixed replies or the embed [build_embed] returned
    for the item.  And when [build_embed] raises on a command or a cog,
    the command raises the same exception and has sent nothing. *)
Theorem source_command_sends_once (ctx : Context)
        (source_item : option SourceType) (w : World) :
  (forall w' : World,
      source_command host Client ctx source_item w = (Return tt, w') ->
      os_getcwd w' = os_getcwd w /\
      exists embed : Embed.t,
        sent w' = (sent w ++ [(ctx, embed)])%list /\
        (embed = repository_embed Client \/
         embed = help_embed Client \/
         exists item,
           source_item = Some item /\
           fst (build_embed host Client item w) = Return embed)) /\
  (forall (item : SourceType) (e : exn),
      source_item = Some item ->
      command_or_cog item ->
      fst (build_embed host Client item w) = Raise e ->
      source_command host Client ctx source_item w = (Raise e, w)).
Proof.
  split.
  - intros w' H. pose proof (source_command_cases ctx source_item w) as Hc.
    now rewrite H in Hc.
  - intros item e -> Hk Hb. unfold source_command, bind.
    pose proof (proj1 (build_embed_read_only item) w) as Hw.
    destruct item as [h | c | g | s]; try contradiction; cbn [bool_of negb];
      destruct (build_embed host Client _ w) as [[embed|x] w'];
      cbn in Hb, Hw; subst w'; try discriminate; now injection Hb as ->.
Qed.

(** X2.  For every command that [get_source_link] resolves, [build_embed]
    returns an embed, whatever the help text: its title is ["Command: "]
    followed by the qualified name, its description the short help text
    (also when that is empty), and the state is unchanged. *)
Theorem build_embed_command (c : Command.t) (w : World)
        (r : string * string * option Z) :
  fst (get_source_link host Client (ItemCommand c) w) = Return r ->
  exists embed : Embed.t,
    build_embed host Client (ItemCommand c) w = (Return embed, w) /\
    Embed.title embed = Some ("Command: " ++ Command.qualified_name c) /\
    Embed.description embed = Some (Command.short_doc c).
Proof.
  intros Hr. unfold build_embed, bind.
  pose proof (proj1 (get_source_link_read_only host Client (ItemCommand c)) w)
    as Hw.
  destruct (get_source_link host Client (ItemCommand c) w)
    as [[[[url location] first_line]|e] w']; cbn in Hr, Hw;
    [subst w' | discriminate].
  eexists. cbn. repeat split.
Qed.

(** X3.  In every embed that [build_embed] produces, link and footer
    agree: the only field is ["Source Code"] with the link to lines [n]
    to [m] of a file location, the footer is that same location followed
    by [:n] (left out when [n] is zero), and there is no thumbnail. *)
Theorem build_embed_link_and_footer (item : SourceType) (w : World)
        (embed : Embed.t) :
  fst (build_embed host Client item w) = Return embed ->
  exists (location : string) (n m : Z),
    Embed.fields embed =
      [("Source Code",
        "[Go to GitHub](" ++
        (github_bot_repo Client ++ "/blob/main/" ++ location ++
         "#L" ++ str_of_int n ++ "-L" ++ str_of_int m) ++ ")")] /\
    Embed.footer embed =
      Some (location ++ if (n =? 0)%Z then "" else ":" ++ str_of_int n) /\
    Embed.thumbnail embed = None.
Proof.
  unfold build_embed, bind. intros H.
  destruct (get_source_link host Client item w)
    as [[[[url location] first_line]|e] w'] eqn:E; [| discriminate].
  destruct (get_source_link_inv host Client item w (url, location, first_line))
    as (filename & lines & n & Hloc); [now rewrite E |].
  rewrite (get_source_link_located host Client _ _ _ _ _ Hloc) in E.
  destruct (relative_to host _ _) as [rel|]; [| discriminate].
  injection E as <- <- <- <-.
  exists (as_posix host rel), n, (n + Z.of_nat (List.length lines) - 1)%Z.
  unfold or_None, int_truthy in H.
  destruct (n =? 0)%Z eqn:En; cbn [negb] in H;
    (destruct item as [h | c | g | s]; cbn in H; try discriminate;
     [| destruct (splitlines (Cog.description g)); [discriminate |]];
     injection H as <-; cbn; rewrite ?En; now repeat split).
Qed.

(** What [get_source_link] does when one of its two guards fires. *)
Lemma get_source_link_lacking (item : SourceType) (w : World) :
  guarded_failure item ->
  get_source_link host Client item w = (Raise dynamically_created, w).
Proof.
  unfold get_source_link, bind, ret, raise, lift,
    inspect.getsourcefile, inspect.getsourcelines.
  destruct item as [h | c | g | s];
    cbn [guarded_failure type_of isinstance_str];
    unfold command_code; intros H.
  2: { cbn. now rewrite H. }
  all: destruct H as [H | (Hs & [f Hf] & Hl)];
    [now rewrite H
    | try discriminate Hs; cbn [type_of]; rewrite Hf; cbn; now rewrite Hl].
Qed.

(** X4.  Asked for a command or a cog on which [inspect] fails in one of
    the two guarded ways ([TypeError] from [getsourcefile], or [OSError]
    from [getsourcelines]), the command raises [BadArgument] with the
    message for objects made at run time and has sent nothing, whatever
    the description of the item: the error of the resolution comes before
    anything [build_embed] reads from it. *)
Theorem source_command_rejects_dynamic (ctx : Context) (item : SourceType)
        (w : World) :
  command_or_cog item ->
  guarded_failure item ->
  source_command host Client ctx (Some item) w =
  (Raise (BadArgument "Cannot get source for a dynamically-created object."),
   w).
Proof.
  intros Hk Hl. unfold source_command, build_embed, bind.
  destruct item as [h | c | g | s]; try contradiction; cbn [bool_of negb];
    now rewrite (get_source_link_lacking _ w Hl).
Qed.

Ltac run_link_in H :=
  unfold get_source_link, bind, ret, raise, lift, Path_cwd,
    inspect.getsourcefile, inspect.getsourcelines, Path in H; cbn in H.

Lemma relative_to_raises (fl : Flavour) (self other : PurePath) (e : exn) :
  relative_to fl self other = Raise e -> e = ValueError.
Proof.
  unfold relative_to.
  match goal with
  | |- (if ?c then _ else _) = _ -> _ => destruct c
  end; intros H; [now injection H | discriminate].
Qed.

(** X5.  [get_source_link] raises [BadArgument] only where it says so: one
    of its two guards fired, and the message is the one for objects made
    at run time.  (Were [inspect] itself to raise a [BadArgument], it would
    be passed on like any exception the guards do not name.)  In
    particular a file outside the working directory is never reported as
    a bad argument. *)
Theorem bad_argument_only_from_guards (item : SourceType) (w : World)
        (msg : string) :
  fst (get_source_link host Client item w) = Raise (BadArgument msg) ->
  (msg = "Cannot get source for a dynamically-created object." /\
   guarded_failure item) \/
  unhandled item (BadArgument msg).
Proof.
  intros H.
  assert (Hlocated :
            forall filename lines n,
              located item filename lines n -> False).
  { intros filename lines n Hloc.
    rewrite (get_source_link_located host Client _ _ _ _ _ Hloc) in H.
    destruct (relative_to host _ _) as [rel|x] eqn:Er; [discriminate |].
    apply relative_to_raises in Er. subst x. discriminate. }
  destruct item as [h | c | g | s];
    cbn [guarded_failure unhandled located type_of isinstance_str] in *.
  - destruct (inspect.class_sourcefile (HelpCommand.type h))
      as [[f|]|e0] eqn:Ef;
      destruct (inspect.class_sourcelines (HelpCommand.type h))
        as [[lines n]|e1] eqn:El.
    1: { destruct (Hlocated f lines n (conj eq_refl eq_refl)). }
    all: run_link_in H; rewrite ?Ef, ?El in H; cbn in H;
      try (destruct e0); try (destruct e1); cbn in H;
      try discriminate; injection H as <-;
      first [ left; split; [reflexivity |]; now left
            | left; split; [reflexivity |]; right; repeat split; eauto; fail
            | right; left; split; [reflexivity | discriminate]
            | right; right; repeat split; eauto; discriminate ].
  - destruct (inspect.code_sourcelines (command_code c))
      as [[lines n]|e1] eqn:El.
    + destruct (Hlocated _ lines n (conj eq_refl eq_refl)).
    + run_link_in H. unfold command_code in El. rewrite El in H.
      destruct e1; cbn in H; try discriminate; injection H as <-;
        [now left | right; split; [reflexivity | discriminate]].
  - destruct (inspect.class_sourcefile (Cog.type g))
      as [[f|]|e0] eqn:Ef;
      destruct (inspect.class_sourcelines (Cog.type g))
        as [[lines n]|e1] eqn:El.
    1: { destruct (Hlocated f lines n (conj eq_refl eq_refl)). }
    all: run_link_in H; rewrite ?Ef, ?El in H; cbn in H;
      try (destruct e0); try (destruct e1); cbn in H;
      try discriminate; injection H as <-;
      first [ left; split; [reflexivity |]; now left
            | left; split; [reflexivity |]; right; repeat split; eauto; fail
            | right; left; split; [reflexivity | discriminate]
            | right; right; repeat split; eauto; discriminate ].
  - cbn in H. injection H as <-. left. split; [reflexivity | now left].
Qed.

(** X6.  An exception of [inspect] that the cog does not handle comes out
    of [get_source_link] as it is, with the state unchanged: it is not
    turned into [BadArgument]. *)
Theorem get_source_link_unhandled (item : SourceType) (w : World) (e : exn) :
  unhandled item e ->
  get_source_link host Client item w = (Raise e, w).
Proof.
  unfold get_source_link, bind, ret, raise, lift,
    inspect.getsourcefile, inspect.getsourcelines.
  destruct item as [h | c | g | s];
    cbn [unhandled type_of isinstance_str]; unfold command_code; intros H.
  2: { destruct H as [H Hne]. cbn. rewrite H.
       destruct e; try reflexivity; congruence. }
  all: destruct H as [[H Hne] | (Hs & [f Hf] & Hl & Hne)];
    [rewrite H; destruct e; try reflexivity; congruence
    | try discriminate Hs; cbn [type_of]; rewrite Hf; cbn; rewrite Hl;
      destruct e; try reflexivity; congruence].
Qed.

Lemma unwrap_wrapped_in (codes : list inspect.CodeType)
      (f : inspect.FunctionType) :
  inspect.unwrap (wrapped_in codes f) = inspect.unwrap f.
Proof.
  induction codes as [|code codes IH]; [reflexivity | exact IH].
Qed.

Lemma wrappers_wrapped_in (codes : list inspect.CodeType)
      (f : inspect.FunctionType) :
  wrappers (wrapped_in codes f) = (List.length codes + wrappers f)%nat.
Proof.
  induction codes as [|code codes IH]; simpl; [reflexivity | now rewrite IH].
Qed.

(** Below the recursion limit the guarded loop returns what [unwrap]
    computes. *)
Lemma unwrap_loop_returns (recursion_limit memo : nat)
      (f : inspect.FunctionType) :
  (memo + wrappers f <= recursion_limit)%nat ->
  unwrap_loop recursion_limit memo f = Return (inspect.unwrap f).
Proof.
  revert memo. induction f as [code | code g IH]; intros memo H; simpl.
  - reflexivity.
  - simpl in H. destruct (Nat.leb_spec recursion_limit memo); [lia |].
    apply IH. lia.
Qed.

(** X7.  Decorators do not move the link: for a callback behind wrappers,
    fewer than the recursion limit in all, [inspect.unwrap] returns the
    innermost function, and the command has the link, and the embed, of
    the command with the bare callback, whatever the code objects of the
    wrappers are. *)
Theorem decorators_keep_the_link (c : Command.t)
        (codes : list inspect.CodeType) (w : World)
        (recursion_limit : nat) :
  (List.length codes + wrappers (Command.callback c) < recursion_limit)%nat ->
  unwrap_guarded recursion_limit (wrapped_in codes (Command.callback c)) =
    Return (inspect.unwrap (Command.callback c)) /\
  get_source_link host Client
    (ItemCommand (with_callback c (wrapped_in codes (Command.callback c)))) w
  = get_source_link host Client (ItemCommand c) w /\
  build_embed host Client
    (ItemCommand (with_callback c (wrapped_in codes (Command.callback c)))) w
  = build_embed host Client (ItemCommand c) w.
Proof.
  intros Hlimit.
  assert (Hlink :
            get_source_link host Client
              (ItemCommand
                 (with_callback c (wrapped_in codes (Command.callback c))))
            = get_source_link host Client (ItemCommand c)).
  { unfold get_source_link. cbn [with_callback Command.callback].
    now rewrite unwrap_wrapped_in. }
  split; [| split; [now rewrite Hlink |]].
  - unfold unwrap_guarded. rewrite unwrap_loop_returns.
    + now rewrite unwrap_wrapped_in.
    + rewrite wrappers_wrapped_in. lia.
  - unfold build_embed. now rewrite Hlink.
Qed.

End Further.

(* ================================================================= *)
(** * The file location, component by component *)

Module PyStrSplit.
Import PyStr PyStrFacts.

Lemma mem_drop (c : ascii) (n : nat) (s : string) :
  mem c s = false -> mem c (drop n s) = false.
Proof.
  revert s. induction n as [|n IH]; intros [|d s] H; simpl; try exact H.
  simpl in H. apply orb_false_iff in H as [_ H]. now apply IH.
Qed.

Lemma mem_lstrip (c d : ascii) (s : string) :
  mem c s = false -> mem c (lstrip d s) = false.
Proof.
  induction s as [|x s IH]; intros H; simpl; [reflexivity |].
  destruct (Ascii.eqb x d); [| exact H].
  simpl in H. apply orb_false_iff in H as [_ H]. now apply IH.
Qed.

(** The pieces of [split] hold no character that the string does not. *)
Lemma split_mem (c sep : ascii) (s : string) :
  mem c s = false -> Forall (fun x => mem c x = false) (split sep s).
Proof.
  induction s as [|d s IH]; intros H; simpl.
  - constructor; [reflexivity | constructor].
  - simpl in H. apply orb_false_iff in H as [Hd Hs]. specialize (IH Hs).
    destruct (Ascii.eqb d sep).
    + constructor; [reflexivity | exact IH].
    + destruct (split sep s) as [|x l].
      * constructor; [simpl; now rewrite Hd | constructor].
      * inversion IH as [|? ? Hx Hl]; subst.
        constructor; [simpl; now rewrite Hd, Hx | exact Hl].
Qed.

Lemma split_absent_id (c : ascii) (s : string) :
  mem c s = false -> split c s = [s].
Proof.
  induction s as [|d s IH]; intros H; simpl; [reflexivity |].
  simpl in H. apply orb_false_iff in H as [Hd Hs].
  now rewrite Hd, (IH Hs).
Qed.

Lemma split_app_sep (c : ascii) (x t : string) :
  mem c x = false -> split c (x ++ String c t) = x :: split c t.
Proof.
  induction x as [|d x IH]; intros H; simpl.
  - now rewrite Ascii.eqb_refl.
  - simpl in H. apply orb_false_iff in H as [Hd Hx].
    now rewrite Hd, (IH Hx).
Qed.

(** [split] undoes [join], for strings without the separator. *)
Lemma split_join (c : ascii) (l : list string) :
  l <> [] -> Forall (fun x => mem c x = false) l ->
  split c (join (String c "") l) = l.
Proof.
  unfold join. induction l as [|x l IH]; intros Hne H; [congruence |].
  inversion H as [|? ? Hx Hl]; subst.
  destruct l as [|y l].
  - now apply split_absent_id.
  - change (String.concat (String c "") (x :: y :: l))
      with (x ++ String c (String.concat (String c "") (y :: l))).
    rewrite (split_app_sep _ _ _ Hx). f_equal. apply IH; [discriminate |].
    exact Hl.
Qed.

End PyStrSplit.

Module pathlibComponents.
Import PyStr PyStrFacts PyStrSplit pathlib pathlibFacts.

Lemma split_extended_path_mem (c : ascii) (s prefix s' : string) :
  c <> backslash -> mem c s = false ->
  _split_extended_path s = (prefix, s') -> mem c s' = false.
Proof.
  unfold _split_extended_path. intros Hc Hs H.
  assert (Hd4 : mem c (drop 4 s) = false) by now apply mem_drop.
  assert (Hd3 : mem c (drop 3 (drop 4 s)) = false) by now apply mem_drop.
  destruct (startswith ext_namespace_prefix s).
  - destruct (startswith _ (drop 4 s)); injection H as _ <-.
    + cbn [mem]. apply orb_false_iff. split; [| exact Hd3].
      apply Ascii.eqb_neq. congruence.
    + exact Hd4.
  - now injection H as _ <-.
Qed.

Lemma splitroot_unc_mem (c : ascii) (prefix part drv root rel : string) :
  mem c part = false ->
  splitroot_unc prefix part = Some (drv, root, rel) -> mem c rel = false.
Proof.
  unfold splitroot_unc. intros Hp H.
  destruct (_ && _ && _); [| discriminate].
  destruct (find_from backslash 2 part) as [index|]; [| discriminate].
  destruct (find_from backslash (index + 1) part) as [i|].
  - destruct (i =? index + 1)%nat; [discriminate |].
    destruct (truthy prefix); injection H as _ _ <-; now apply mem_drop.
  - destruct (truthy prefix); injection H as _ _ <-; now apply mem_drop.
Qed.

Lemma splitroot_drive_mem (c : ascii) (prefix part drv root rel : string) :
  mem c part = false ->
  splitroot_drive prefix part = (drv, root, rel) -> mem c rel = false.
Proof.
  unfold splitroot_drive. intros Hp H.
  pose proof (mem_drop c 2 part Hp) as Hd.
  pose proof (mem_lstrip c backslash _ Hd) as Hdl.
  pose proof (mem_lstrip c backslash _ Hp) as Hl.
  destruct (_ && _).
  - destruct (slice 2 3 part =? String backslash ""); injection H as _ _ <-;
      [exact Hdl | exact Hd].
  - destruct (slice 0 1 part =? String backslash ""); injection H as _ _ <-;
      [exact Hl | exact Hp].
Qed.

Lemma windows_splitroot_mem (c : ascii) (part drv root rel : string) :
  c <> backslash -> mem c part = false ->
  windows_splitroot part = (drv, root, rel) -> mem c rel = false.
Proof.
  unfold windows_splitroot. intros Hc Hp H.
  destruct (if (slice 1 2 part =? String backslash "")
               && (slice 0 1 part =? String backslash "")
            then _split_extended_path part else ("", part))
    as [prefix part'] eqn:Ee.
  assert (Hp' : mem c part' = false).
  { destruct (_ && _).
    - now apply (split_extended_path_mem c part prefix part').
    - now injection Ee as _ <-. }
  destruct (splitroot_unc prefix part') as [r|] eqn:Eunc.
  - subst r. now apply (splitroot_unc_mem c prefix part' drv root rel).
  - now apply (splitroot_drive_mem c prefix part' drv root rel).
Qed.

Lemma keeps_not_dot (x : string) : keeps x = true -> x <> ".".
Proof.
  unfold keeps. intros H E. subst x. discriminate H.
Qed.

(** No component of a parsed path is empty or a dot, and none holds a
    forward slash, on either flavour. *)
Lemma parse_parts_components (fl : Flavour) (part : string) :
  Forall (fun x => x <> "" /\ x <> "." /\ mem "/"%char x = false)
         (components (parse_parts fl part)).
Proof.
  pose proof (parsed_components _ _ (parse_parts_parsed fl part)) as Hsep.
  assert (Hk : Forall (fun x => keeps x = true)
                 (components (parse_parts fl part))).
  { unfold parse_parts. destruct (truthy part); [| constructor].
    destruct (splitroot fl _) as [[drv root] rel].
    destruct (truthy drv || truthy root) eqn:Ea;
      unfold components; simpl; rewrite Ea; simpl;
      apply Forall_forall; intros x Hx; now apply filter_In in Hx. }
  assert (Hslash : Forall (fun x => mem "/"%char x = false)
                     (components (parse_parts fl part))).
  { destruct fl.
    - eapply Forall_impl; [| exact Hsep]. now intros x [Hx _].
    - unfold parse_parts. destruct (truthy part); [| constructor].
      cbn [altsep sep].
      destruct (splitroot WindowsFlavour _) as [[drv root] rel] eqn:Es.
      assert (Hrel : mem "/"%char rel = false).
      { apply (windows_splitroot_mem "/"%char
                 (replace "/"%char backslash part) drv root rel);
          [discriminate | | exact Es].
        apply mem_replace. discriminate. }
      pose proof (split_mem "/"%char backslash rel Hrel) as Hpieces.
      destruct (truthy drv || truthy root) eqn:Ea;
        unfold components; simpl; rewrite Ea; simpl;
        apply Forall_forall; intros x Hx; apply filter_In in Hx as [Hx _];
        rewrite Forall_forall in Hpieces; now apply Hpieces. }
  rewrite Forall_forall in *. intros x Hx. repeat split.
  - apply truthy_true, (proj2 (Hsep x Hx)).
  - apply keeps_not_dot, Hk, Hx.
  - apply Hslash, Hx.
Qed.

End pathlibComponents.

Section Location.

Variable host : pathlib.Flavour.
Variable Client : ClientConfig.

Import PyStr PyStrFacts PyStrSplit pathlib pathlibFacts pathlibComponents.

(** X8.  The file location that [get_source_link] returns, split at the
    forward slashes, is the list of the components of the file below the
    working directory, on either host: none of them is empty or a dot, so
    the location never starts with a slash, has no doubled slash and no
    [./] in it.  The location is the dot only when there is no component
    left. *)
Theorem location_components (item : SourceType) (w : World)
        (url location : string) (first_line : option Z) :
  is_absolute host (cwd_path host w) = true ->
  fst (get_source_link host Client item w) =
    Return (url, location, first_line) ->
  exists (filename : string) (lines : list string) (n : Z),
    located item filename lines n /\
    Forall (fun x => x <> "" /\ x <> "." /\ mem "/"%char x = false)
           (below (parse_parts host filename) (cwd_path host w)) /\
    (below (parse_parts host filename) (cwd_path host w) <> [] ->
     split "/"%char location =
     below (parse_parts host filename) (cwd_path host w)) /\
    (below (parse_parts host filename) (cwd_path host w) = [] ->
     location = ".").
Proof.
  intros Habs E.
  destruct (get_source_link_returns host Client _ _ _ _ _ Habs E)
    as (filename & lines & n & Hloc & _ & Hlocation & _).
  exists filename, lines, n. split; [exact Hloc |].
  assert (Hrest : Forall (fun x => x <> "" /\ x <> "." /\
                                   mem "/"%char x = false)
                    (below (parse_parts host filename) (cwd_path host w))).
  { apply Forall_skipn, parse_parts_components. }
  split; [exact Hrest |]. rewrite Hlocation. split.
  - intros Hne.
    destruct (below (parse_parts host filename) (cwd_path host w))
      as [|x rest] eqn:Eb; [congruence |].
    unfold posix_join. apply split_join; [discriminate |].
    eapply Forall_impl; [| exact Hrest]. now intros y (_ & _ & Hy).
  - now intros ->.
Qed.

End Location.


(* ================================================================= *)
(** * Links and line ranges *)

Module LineNumberFacts.
Import PyStr PyStrFacts.

Lemma string_of_uint_no_L (d : Decimal.uint) :
  mem "L"%char (NilEmpty.string_of_uint d) = false.
Proof. induction d; simpl; auto. Qed.

(** A formatted number holds no letter L. *)
Lemma str_of_int_no_L (n : Z) : mem "L"%char (str_of_int n) = false.
Proof.
  unfold str_of_int, NilZero.string_of_int, NilZero.string_of_uint.
  destruct (Z.to_int n) as [d|d]; destruct d;
    try reflexivity; apply string_of_uint_no_L.
Qed.

(** Reading a formatted number gives the number back. *)
Lemma int_of_str_of_int (n : Z) : int_of_str (str_of_int n) = Some n.
Proof.
  unfold int_of_str, str_of_int.
  rewrite NilZero.isi.
  - cbn. now rewrite DecimalZ.of_to.
  - destruct n; cbn; try discriminate.
    intros [= H]. now apply DecimalPos.Unsigned.to_uint_nonnil in H.
  - destruct n; cbn; try discriminate.
    intros [= H]. now apply DecimalPos.Unsigned.to_uint_nonnil in H.
Qed.

Lemma str_of_int_inj (n m : Z) : str_of_int n = str_of_int m -> n = m.
Proof.
  intros E. apply (f_equal int_of_str) in E.
  rewrite !int_of_str_of_int in E. now injection E.
Qed.

(** Two strings cut at the first occurrence of a character agree on both
    sides of the cut. *)
Lemma append_cut (c : ascii) (a a' b b' : string) :
  mem c a = false -> mem c a' = false ->
  a ++ String c b = a' ++ String c b' -> a = a' /\ b = b'.
Proof.
  revert a'. induction a as [|x a IH]; intros [|y a'] Ha Ha' E;
    simpl in *.
  - now injection E.
  - injection E as -> _. now rewrite Ascii.eqb_refl in Ha'.
  - injection E as -> _. now rewrite Ascii.eqb_refl in Ha.
  - injection E as -> E.
    apply orb_false_iff in Ha as [_ Ha]. apply orb_false_iff in Ha' as [_ Ha'].
    destruct (IH a' Ha Ha' E) as [-> ->]. now split.
Qed.

Lemma append_inv_last (c : ascii) (s s' : string) :
  s ++ String c "" = s' ++ String c "" -> s = s'.
Proof.
  revert s'. induction s as [|x s IH]; intros [|y s'] E; simpl in *.
  - reflexivity.
  - injection E as _ E. now destruct s'.
  - injection E as _ E. now destruct s.
  - injection E as -> E. f_equal. now apply IH.
Qed.

(** The link to a line range of a file tells the range. *)
Lemma blob_url_inj (Client : ClientConfig) (location : string)
      (n m n' m' : Z) :
  blob_url Client location n m = blob_url Client location n' m' ->
  n = n' /\ m = m'.
Proof.
  unfold blob_url. intros E.
  apply append_inv_head in E.
  apply (append_inv_head "/blob/main/") in E.
  apply append_inv_head in E.
  apply (append_inv_head "#L") in E.
  change (str_of_int n ++ "-L" ++ str_of_int m)
    with (str_of_int n ++ "-" ++ String "L" (str_of_int m)) in E.
  change (str_of_int n' ++ "-L" ++ str_of_int m')
    with (str_of_int n' ++ "-" ++ String "L" (str_of_int m')) in E.
  rewrite <- !append_assoc in E.
  apply (append_cut "L"%char) in E as [En Em].
  - split.
    + apply str_of_int_inj. now apply (append_inv_last "-"%char).
    + now apply str_of_int_inj.
  - rewrite mem_append, str_of_int_no_L. reflexivity.
  - rewrite mem_append, str_of_int_no_L. reflexivity.
Qed.

End LineNumberFacts.

Section Ranges.

Variable host : pathlib.Flavour.
Variable Client : ClientConfig.

Import PyStr PyStrFacts pathlib pathlibFacts LineNumberFacts.

(** X9.  Within one file a link tells the region: two items that the
    introspection data locate in the same file and for which
    [get_source_link] returns the same link start at the same line and
    have the same number of source lines.  Different regions of a file
    never share a link. *)
Theorem link_determines_range (item1 item2 : SourceType) (w : World)
        (filename : string) (lines1 lines2 : list string) (n1 n2 : Z)
        (url location1 location2 : string) (first1 first2 : option Z) :
  located item1 filename lines1 n1 ->
  located item2 filename lines2 n2 ->
  fst (get_source_link host Client item1 w) =
    Return (url, location1, first1) ->
  fst (get_source_link host Client item2 w) =
    Return (url, location2, first2) ->
  n1 = n2 /\ List.length lines1 = List.length lines2.
Proof.
  intros Hloc1 Hloc2 E1 E2.
  rewrite (get_source_link_located host Client _ _ _ _ _ Hloc1) in E1.
  rewrite (get_source_link_located host Client _ _ _ _ _ Hloc2) in E2.
  destruct (relative_to host _ _) as [rel|]; [| discriminate].
  cbn in E1, E2. injection E1 as E1 _ _. injection E2 as E2 _ _.
  rewrite <- E2 in E1. apply blob_url_inj in E1 as [-> Hm].
  split; [reflexivity | lia].
Qed.

End Ranges.

Section Summaries.

Variable host : pathlib.Flavour.
Variable Client : ClientConfig.

Import PyStr PyStrFacts.

(** X11.  On a command or a cog, the one exception [build_embed] adds to
    those of [get_source_link] is the [IndexError] for a cog with an empty
    description: any other exception it raises is the one
    [get_source_link] raised. *)
Theorem build_embed_errors (item : SourceType) (w : World) (e : exn) :
  command_or_cog item ->
  fst (build_embed host Client item w) = Raise e ->
  fst (get_source_link host Client item w) = Raise e \/
  (e = IndexError /\
   exists (g : Cog.t) (r : string * string * option Z),
     item = ItemCog g /\ Cog.description g = "" /\
     fst (get_source_link host Client item w) = Return r).
Proof.
  intros Hk. unfold build_embed, bind.
  destruct (get_source_link host Client item w)
    as [[[[url location] first_line]|e0] w'].
  - destruct item as [h | c | g | s]; try contradiction; cbn.
    + discriminate.
    + destruct (splitlines (Cog.description g)) eqn:Es; [| discriminate].
      cbn. intros [= <-]. right. split; [reflexivity |].
      exists g, (url, location, first_line).
      repeat split. now apply splitlines_nil.
  - cbn. intros [= <-]. now left.
Qed.

End Summaries.

(* ================================================================= *)
(** * The further properties on the sample data *)

Lemma build_embed_command_witness :
  exists embed : Embed.t,
    build_embed pathlib.PosixFlavour Sample.Client
      (ItemCommand Sample.source) Sample.world =
    (Return embed, Sample.world) /\
    Embed.title embed = Some "Command: source" /\
    Embed.description embed = Some "Display information and a GitHub link.".
Proof.
  apply (build_embed_command pathlib.PosixFlavour Sample.Client
           Sample.source Sample.world
           ("https://github.com/python-discord/sir-robin/blob/main/bot/exts/source.py#L19-L21",
            "bot/exts/source.py", Some 19%Z)).
  reflexivity.
Defined.

Lemma build_embed_link_and_footer_witness :
  exists (location : string) (n m : Z),
    [("Source Code",
      "[Go to GitHub](https://github.com/python-discord/sir-robin/blob/main/bot/exts/source.py#L13-L14)")]
    = [("Source Code",
        "[Go to GitHub](" ++
        (github_bot_repo Sample.Client ++ "/blob/main/" ++ location ++
         "#L" ++ str_of_int n ++ "-L" ++ str_of_int m) ++ ")")] /\
    Some "bot/exts/source.py:13" =
      Some (location ++ if (n =? 0)%Z then "" else ":" ++ str_of_int n) /\
    @None string = None.
Proof.
  apply (build_embed_link_and_footer pathlib.PosixFlavour Sample.Client
           (ItemCog Sample.BotSource) Sample.world
           {| Embed.title := Some "Cog: BotSource";
              Embed.description :=
                Some "Displays information about the bot's source code.";
              Embed.fields :=
                [("Source Code",
                  "[Go to GitHub](https://github.com/python-discord/sir-robin/blob/main/bot/exts/source.py#L13-L14)")];
              Embed.thumbnail := None;
              Embed.footer := Some "bot/exts/source.py:13" |}).
  reflexivity.
Defined.

Lemma source_command_rejects_dynamic_witness :
  source_command pathlib.PosixFlavour Sample.Client {| channel := 1 |}
    (Some (ItemCog Sample.Dynamic)) Sample.busy_world =
  (Raise (BadArgument "Cannot get source for a dynamically-created object."),
   Sample.busy_world).
Proof.
  apply (source_command_rejects_dynamic pathlib.PosixFlavour Sample.Client
           {| channel := 1 |} (ItemCog Sample.Dynamic) Sample.busy_world).
  - exact I.
  - left. reflexivity.
Defined.

Lemma bad_argument_only_from_guards_witness :
  ("Cannot get source for a dynamically-created object." =
   "Cannot get source for a dynamically-created object." /\
   guarded_failure (ItemCog Sample.Dynamic)) \/
  unhandled (ItemCog Sample.Dynamic)
    (BadArgument "Cannot get source for a dynamically-created object.").
Proof.
  apply (bad_argument_only_from_guards pathlib.PosixFlavour Sample.Client
           (ItemCog Sample.Dynamic) Sample.world
           "Cannot get source for a dynamically-created object.").
  reflexivity.
Defined.

Lemma source_command_sends_once_witness :
  (exists embed : Embed.t,
      sent (snd (source_command pathlib.PosixFlavour Sample.Client
                   {| channel := 1 |} (Some (ItemCog Sample.BotSource))
                   Sample.busy_world)) =
        (sent Sample.busy_world ++ [({| channel := 1 |}, embed)])%list /\
      (embed = repository_embed Sample.Client \/
       embed = help_embed Sample.Client \/
       exists item,
         Some (ItemCog Sample.BotSource) = Some item /\
         fst (build_embed pathlib.PosixFlavour Sample.Client item
                Sample.busy_world) = Return embed)) /\
  source_command pathlib.PosixFlavour Sample.Client {| channel := 1 |}
    (Some (ItemCog Sample.Undocumented)) Sample.busy_world =
  (Raise IndexError, Sample.busy_world).
Proof.
  split.
  - destruct (source_command_sends_once pathlib.PosixFlavour Sample.Client
                {| channel := 1 |} (Some (ItemCog Sample.BotSource))
                Sample.busy_world) as [A _].
    apply (A (snd (source_command pathlib.PosixFlavour Sample.Client
                     {| channel := 1 |} (Some (ItemCog Sample.BotSource))
                     Sample.busy_world))).
    reflexivity.
  - destruct (source_command_sends_once pathlib.PosixFlavour Sample.Client
                {| channel := 1 |} (Some (ItemCog Sample.Undocumented))
                Sample.busy_world) as [_ B].
    apply (B (ItemCog Sample.Undocumented) IndexError);
      [reflexivity | exact I | reflexivity].
Defined.

Lemma decorators_keep_the_link_witness :
  unwrap_guarded 1000
    (wrapped_in [Sample.wrapper_code; Sample.wrapper_code]
       (Command.callback Sample.source)) =
    Return (inspect.Function Sample.callback_code) /\
  get_source_link pathlib.PosixFlavour Sample.Client
    (ItemCommand
       (with_callback Sample.source
          (wrapped_in [Sample.wrapper_code; Sample.wrapper_code]
             (Command.callback Sample.source)))) Sample.world
  = get_source_link pathlib.PosixFlavour Sample.Client
      (ItemCommand Sample.source) Sample.world /\
  build_embed pathlib.PosixFlavour Sample.Client
    (ItemCommand
       (with_callback Sample.source
          (wrapped_in [Sample.wrapper_code; Sample.wrapper_code]
             (Command.callback Sample.source)))) Sample.world
  = build_embed pathlib.PosixFlavour Sample.Client
      (ItemCommand Sample.source) Sample.world.
Proof.
  apply (decorators_keep_the_link pathlib.PosixFlavour Sample.Client
           Sample.source [Sample.wrapper_code; Sample.wrapper_code]
           Sample.world 1000).
  cbn. lia.
Defined.

Lemma get_source_link_unhandled_witness :
  unhandled (ItemCog Sample.Interactive) OSError /\
  get_source_link pathlib.PosixFlavour Sample.Client
    (ItemCog Sample.Interactive) Sample.world =
  (Raise OSError, Sample.world).
Proof.
  assert (H : unhandled (ItemCog Sample.Interactive) OSError).
  { left. split; [reflexivity | discriminate]. }
  split; [exact H |].
  apply (get_source_link_unhandled pathlib.PosixFlavour Sample.Client
           (ItemCog Sample.Interactive) Sample.world OSError H).
Defined.

Lemma location_components_witness :
  exists (filename : string) (lines : list string) (n : Z),
    located (ItemCommand Sample.windows_source) filename lines n /\
    Forall (fun x => x <> "" /\ x <> "." /\ PyStr.mem "/"%char x = false)
      (pathlib.below
         (pathlib.parse_parts pathlib.WindowsFlavour filename)
         (cwd_path pathlib.WindowsFlavour Sample.windows_world)) /\
    (pathlib.below
       (pathlib.parse_parts pathlib.WindowsFlavour filename)
       (cwd_path pathlib.WindowsFlavour Sample.windows_world) <> [] ->
     PyStr.split "/"%char "bot/exts/source.py" =
     pathlib.below
       (pathlib.parse_parts pathlib.WindowsFlavour filename)
       (cwd_path pathlib.WindowsFlavour Sample.windows_world)) /\
    (pathlib.below
       (pathlib.parse_parts pathlib.WindowsFlavour filename)
       (cwd_path pathlib.WindowsFlavour Sample.windows_world) = [] ->
     "bot/exts/source.py" = ".").
Proof.
  apply (location_components pathlib.WindowsFlavour Sample.Client
           (ItemCommand Sample.windows_source) Sample.windows_world
           "https://github.com/python-discord/sir-robin/blob/main/bot/exts/source.py#L19-L20"
           "bot/exts/source.py" (Some 19%Z)).
  - reflexivity.
  - reflexivity.
Defined.

(** The decorated command and the bare function behind it. *)
Lemma link_determines_range_witness :
  19%Z = 19%Z /\ 3 = 3.
Proof.
  apply (link_determines_range pathlib.PosixFlavour Sample.Client
           (ItemCommand Sample.source)
           (ItemCommand
              (with_callback Sample.source
                 (inspect.Function Sample.callback_code)))
           Sample.world Sample.source_py
           ["@commands.command()"; "async def source_command():";
            "    return"]
           ["@commands.command()"; "async def source_command():";
            "    return"]
           19%Z 19%Z
           "https://github.com/python-discord/sir-robin/blob/main/bot/exts/source.py#L19-L21"
           "bot/exts/source.py" "bot/exts/source.py" (Some 19%Z) (Some 19%Z)).
  - split; reflexivity.
  - split; reflexivity.
  - reflexivity.
  - reflexivity.
Defined.

Lemma build_embed_errors_witness :
  fst (get_source_link pathlib.PosixFlavour Sample.Client
         (ItemCog Sample.Undocumented) Sample.world) = Raise IndexError \/
  (IndexError = IndexError /\
   exists (g : Cog.t) (r : string * string * option Z),
     ItemCog Sample.Undocumented = ItemCog g /\ Cog.description g = "" /\
     fst (get_source_link pathlib.PosixFlavour Sample.Client
            (ItemCog Sample.Undocumented) Sample.world) = Return r).
Proof.
  apply (build_embed_errors pathlib.PosixFlavour Sample.Client
           (ItemCog Sample.Undocumented) Sample.world IndexError).
  - exact I.
  - reflexivity.
Defined.
